(** * RFB-ESRGAN model graph: shapes and wiring of [model.py]

    The file [rfb_esrgan_pytorch/model.py] assembles PyTorch layers into a
    discriminator and a generator.  What the program decides by itself is the
    wiring: which layer feeds which, with how many channels, and which
    attributes a block owns.  The development below embeds that wiring.

    A tensor is represented by what [Tensor.size()] returns, a list of
    integers; every operator of the numeric backend is represented by its
    effect on sizes, together with the conditions under which the backend
    raises.  Tensors are batched images (N, C, H, W) until the discriminator
    flattens them; an operator applied to another rank rejects it.  Python
    integers are [Z], [//] is [Z.div], the floats that only scale values
    (0.2) are kept as rationals.  Every forward pass takes the mode
    [nn.Module.training] of the module it runs in. *)

From Stdlib Require Import String.
From Stdlib Require Import ZArith List QArith Bool Lia.
Import ListNotations.
Local Open Scope Z_scope.

(** ** Exceptions and the error monad *)

(** Why the backend rejected the sizes of its operands. *)
Inductive shape_issue : Type :=
| RankMismatch                        (* operand is not (N, C, H, W) / has too few axes *)
| ChannelMismatch (expected got : Z)  (* weight expects [expected] channels *)
| KernelTooLarge                      (* padded extent smaller than the dilated kernel *)
| SizeMismatch                        (* torch.cat / broadcasting: sizes differ *)
| TooFewValues                        (* batch norm, training mode, one value per channel *)
| NotDivisible                        (* pixel shuffle: channels not a multiple of r*r *)
| EmptyInput                          (* resampling of an empty spatial extent *)
| NoChannels.                         (* a convolution built for, or fed, no channels *)

(** The Python exceptions a forward pass or a constructor can raise. *)
Inductive error : Type :=
| ShapeError (i : shape_issue)
| AttributeError (name : String.string)
| TypeError
| MathDomainError.

Inductive result (A : Type) : Type :=
| Ok (a : A)
| Err (e : error).
Arguments Ok {A} a.
Arguments Err {A} e.

Definition bind {A B : Type} (r : result A) (k : A -> result B) : result B :=
  match r with
  | Ok a => k a
  | Err e => Err e
  end.

Notation "x <- c1 ;; c2" := (bind c1 (fun x => c2))
  (at level 61, c1 at next level, right associativity).

(** [self.name] on an [nn.Module]: an attribute the constructor never
    assigned raises [AttributeError]. *)
Definition getattr {A : Type} (name : String.string) (slot : option A) : result A :=
  match slot with
  | Some a => Ok a
  | None => Err (AttributeError name)
  end.

(** ** Tensors and the [torch] functions the file calls *)

Definition Tensor : Type := list Z.

(** [tensor * scalar]: sizes are unchanged. *)
Definition mul_scalar (t : Tensor) (s : Q) : Tensor := t.

Definition broadcast_dim (x y : Z) : option Z :=
  if x =? y then Some x
  else if x =? 1 then Some y
  else if y =? 1 then Some x
  else None.

(** Broadcasting aligns sizes from the last axis; the arguments are reversed
    sizes. *)
Fixpoint broadcast_rev (a b : list Z) : option (list Z) :=
  match a, b with
  | [], _ => Some b
  | _, [] => Some a
  | x :: a', y :: b' =>
      match broadcast_dim x y, broadcast_rev a' b' with
      | Some d, Some r => Some (d :: r)
      | _, _ => None
      end
  end.

(** [torch.add(a, b)] and [a + b]. *)
Definition torch_add (a b : Tensor) : result Tensor :=
  match broadcast_rev (rev a) (rev b) with
  | Some r => Ok (rev r)
  | None => Err (ShapeError SizeMismatch)
  end.

Fixpoint sizes_eqb (a b : list Z) : bool :=
  match a, b with
  | [], [] => true
  | x :: a', y :: b' => (x =? y) && sizes_eqb a' b'
  | _, _ => false
  end.

Definition cat2 (a b : Tensor) : result Tensor :=
  match a, b with
  | n :: c :: sa, n' :: c' :: sb =>
      if (n =? n') && sizes_eqb sa sb then Ok (n :: c + c' :: sa)
      else Err (ShapeError SizeMismatch)
  | _, _ => Err (ShapeError RankMismatch)
  end.

Fixpoint cat_onto (acc : Tensor) (ts : list Tensor) : result Tensor :=
  match ts with
  | [] => Ok acc
  | t :: rest => acc' <- cat2 acc t ;; cat_onto acc' rest
  end.

(** [torch.cat(ts, 1)]: all axes but axis 1 must agree. *)
Definition torch_cat1 (ts : list Tensor) : result Tensor :=
  match ts with
  | [] => Err (ShapeError RankMismatch)
  | t :: rest => cat_onto t rest
  end.

(** [torch.flatten(t, 1)]. *)
Definition torch_flatten1 (t : Tensor) : result Tensor :=
  match t with
  | n :: d :: rest => Ok [n; fold_left Z.mul rest d]
  | _ => Err (ShapeError RankMismatch)
  end.

(** ** The [torch.nn] layers the file instantiates *)

Inductive layer : Type :=
| Conv2d (in_channels out_channels : Z) (kernel_size stride padding dilation : Z * Z)
| LeakyReLU (negative_slope : Q)
| ReLU
| BatchNorm2d (num_features : Z)
| Upsample (scale_factor : Z)
| PixelShuffle (upscale_factor : Z)
| AdaptiveAvgPool2d (output_size : Z * Z)
| Linear (in_features out_features : Z).

(** An integer hyper-parameter stands for the same value on both axes. *)
Definition sq (k : Z) : Z * Z := (k, k).

(** Output extent of a convolution along one axis, when the padded input
    holds the dilated kernel at least once. *)
Definition conv_out (size k s p d : Z) : option Z :=
  if d * (k - 1) + 1 <=? size + 2 * p
  then Some ((size + 2 * p - d * (k - 1) - 1) / s + 1)
  else None.

Definition Linear_forward (in_features out_features : Z) (x : Tensor) : result Tensor :=
  match rev x with
  | f :: r =>
      if f =? in_features then Ok (rev (out_features :: r))
      else Err (ShapeError (ChannelMismatch in_features f))
  | [] => Err (ShapeError RankMismatch)
  end.

(** [layer(x)] for a batched tensor (N, C, H, W), which is what every class
    of the file is written for; a tensor of another rank is rejected.  A
    convolution runs only with a positive number of input and of output
    channels.  [training] is [nn.Module.training]: it only matters to batch
    normalisation, which in training mode refuses a batch with a single value
    per channel. *)
Definition layer_forward (training : bool) (l : layer) (x : Tensor) : result Tensor :=
  match l with
  | Conv2d cin cout k s p d =>
      match x with
      | [n; c; h; w] =>
          if c =? cin then
            if (0 <? cin) && (0 <? cout) then
              match conv_out h (fst k) (fst s) (fst p) (fst d),
                    conv_out w (snd k) (snd s) (snd p) (snd d) with
              | Some h', Some w' => Ok [n; cout; h'; w']
              | _, _ => Err (ShapeError KernelTooLarge)
              end
            else Err (ShapeError NoChannels)
          else Err (ShapeError (ChannelMismatch cin c))
      | _ => Err (ShapeError RankMismatch)
      end
  | LeakyReLU _ => Ok x
  | ReLU => Ok x
  | BatchNorm2d nf =>
      match x with
      | [n; c; h; w] =>
          if training && (n * h * w =? 1) then Err (ShapeError TooFewValues)
          else if c =? nf then Ok x
          else Err (ShapeError (ChannelMismatch nf c))
      | _ => Err (ShapeError RankMismatch)
      end
  | Upsample f =>
      match x with
      | [n; c; h; w] =>
          if (0 <? h) && (0 <? w) then Ok [n; c; h * f; w * f]
          else Err (ShapeError EmptyInput)
      | _ => Err (ShapeError RankMismatch)
      end
  | PixelShuffle r =>
      match x with
      | [n; c; h; w] =>
          if c mod (r * r) =? 0 then Ok [n; c / (r * r); h * r; w * r]
          else Err (ShapeError NotDivisible)
      | _ => Err (ShapeError RankMismatch)
      end
  | AdaptiveAvgPool2d o =>
      match x with
      | [n; c; h; w] =>
          if (0 <? c) && (0 <? h) && (0 <? w) then Ok [n; c; fst o; snd o]
          else Err (ShapeError EmptyInput)
      | _ => Err (ShapeError RankMismatch)
      end
  | Linear fin fout => Linear_forward fin fout x
  end.

(** [nn.Sequential] applied to [x]: the layers in order. *)
Fixpoint Sequential_forward (training : bool) (ls : list layer) (x : Tensor)
  : result Tensor :=
  match ls with
  | [] => Ok x
  | l :: rest => y <- layer_forward training l x ;; Sequential_forward training rest y
  end.

(** The literal [0.2]. *)
Definition ratio_0_2 : Q := (2 # 10)%Q.

(** [nn.Sequential] applied to a Python value that may be [None]: the stacks
    of this file start with a convolution, and the backend call of a
    convolution rejects a [None] operand with [TypeError]. *)
Definition Sequential_call (training : bool) (ls : list layer) (input : option Tensor)
  : result Tensor :=
  match input with
  | Some x => Sequential_forward training ls x
  | None => Err TypeError
  end.

(** ** [class Discriminator] *)

Module Discriminator.

Record t : Type := {
  features : list layer;
  avgpool : layer;
  classifier : list layer
}.

Definition init : t := {|
  features := [
    (* Conv0 *)
    Conv2d 3 64 (sq 3) (sq 1) (sq 1) (sq 1);
    LeakyReLU ratio_0_2;
    Conv2d 64 64 (sq 4) (sq 2) (sq 1) (sq 1);
    BatchNorm2d 64;
    LeakyReLU ratio_0_2;
    (* Conv1 *)
    Conv2d 64 128 (sq 3) (sq 1) (sq 1) (sq 1);
    BatchNorm2d 128;
    LeakyReLU ratio_0_2;
    Conv2d 128 128 (sq 4) (sq 2) (sq 1) (sq 1);
    BatchNorm2d 128;
    LeakyReLU ratio_0_2;
    (* Conv2 *)
    Conv2d 128 256 (sq 3) (sq 1) (sq 1) (sq 1);
    BatchNorm2d 256;
    LeakyReLU ratio_0_2;
    Conv2d 256 256 (sq 4) (sq 2) (sq 1) (sq 1);
    BatchNorm2d 256;
    LeakyReLU ratio_0_2;
    (* Conv3 *)
    Conv2d 256 512 (sq 3) (sq 1) (sq 1) (sq 1);
    BatchNorm2d 512;
    LeakyReLU ratio_0_2;
    Conv2d 512 512 (sq 4) (sq 2) (sq 1) (sq 1);
    BatchNorm2d 512;
    LeakyReLU ratio_0_2;
    (* Conv4 *)
    Conv2d 512 512 (sq 3) (sq 1) (sq 1) (sq 1);
    BatchNorm2d 512;
    LeakyReLU ratio_0_2;
    Conv2d 512 512 (sq 4) (sq 2) (sq 1) (sq 1);
    BatchNorm2d 512;
    LeakyReLU ratio_0_2
  ];
  avgpool := AdaptiveAvgPool2d (7, 7);
  classifier := [
    Linear (512 * 7 * 7) 100;
    LeakyReLU ratio_0_2;
    Linear 100 1
  ]
|}.

(** [forward(self, input: Tensor = None)]. *)
Definition forward (training : bool) (self : t) (input : option Tensor)
  : result Tensor :=
  out <- Sequential_call training (features self) input ;;
  out <- layer_forward training (avgpool self) out ;;
  out <- torch_flatten1 out ;;
  Sequential_forward training (classifier self) out.

End Discriminator.

(** ** [class Inception] *)

Module Inception.

Record t : Type := {
  shortcut : layer;
  branch1 : list layer;
  branch2 : list layer;
  branch3 : list layer;
  branch4 : list layer;
  conv1x1 : layer;
  lrelu : option layer;
  scale_ratio : Q
}.

Definition init (in_channels out_channels : Z) (scale_ratio : Q) (non_linearity : bool)
  : t :=
  let channels := in_channels / 4 in
  {|
    shortcut := Conv2d in_channels out_channels (sq 1) (sq 1) (sq 0) (sq 1);
    branch1 := [
      Conv2d in_channels channels (sq 1) (sq 1) (sq 0) (sq 1);
      ReLU;
      Conv2d channels channels (sq 1) (sq 1) (sq 1) (sq 1)
    ];
    branch2 := [
      Conv2d in_channels channels (sq 1) (sq 1) (sq 0) (sq 1);
      ReLU;
      Conv2d channels channels (1, 3) (sq 1) (0, 1) (sq 1);
      ReLU;
      Conv2d channels channels (sq 3) (sq 1) (sq 3) (sq 3)
    ];
    branch3 := [
      Conv2d in_channels channels (sq 1) (sq 1) (sq 0) (sq 1);
      ReLU;
      Conv2d channels channels (3, 1) (sq 1) (1, 0) (sq 1);
      ReLU;
      Conv2d channels channels (sq 3) (sq 1) (sq 3) (sq 3)
    ];
    branch4 := [
      Conv2d in_channels (channels / 2) (sq 1) (sq 1) (sq 0) (sq 1);
      ReLU;
      Conv2d (channels / 4) ((channels / 4) * 3) (1, 3) (sq 1) (0, 1) (sq 1);
      ReLU;
      Conv2d ((channels / 4) * 3) channels (1, 3) (sq 1) (0, 1) (sq 1);
      ReLU;
      Conv2d channels channels (sq 3) (sq 1) (sq 5) (sq 5)
    ];
    conv1x1 := Conv2d in_channels out_channels (sq 1) (sq 1) (sq 0) (sq 1);
    lrelu := if non_linearity then Some (LeakyReLU ratio_0_2) else None;
    scale_ratio := scale_ratio
  |}.

Definition forward (training : bool) (self : t) (input : Tensor) : result Tensor :=
  shortcut <- layer_forward training (shortcut self) input ;;
  branch1 <- Sequential_forward training (branch1 self) input ;;
  branch2 <- Sequential_forward training (branch2 self) input ;;
  branch3 <- Sequential_forward training (branch3 self) input ;;
  branch4 <- Sequential_forward training (branch4 self) input ;;
  out <- torch_cat1 [branch1; branch2; branch3; branch4] ;;
  out <- layer_forward training (conv1x1 self) out ;;
  out <- torch_add (mul_scalar shortcut (scale_ratio self)) out ;;
  match lrelu self with
  | Some act => layer_forward training act out
  | None => Ok out
  end.

End Inception.

(** ** [class ReceptiveFieldsDenseBlock] *)

Module ReceptiveFieldsDenseBlock.

(** The constructor assigns [conv1] .. [conv5] and nothing else: the slot
    of [scale_ratio] stays empty. *)
Record t : Type := {
  conv1 : Inception.t;
  conv2 : Inception.t;
  conv3 : Inception.t;
  conv4 : Inception.t;
  conv5 : Inception.t;
  scale_ratio : option Q
}.

Definition init (in_channels growth_channels : Z) (scale_ratio : Q) : t := {|
  conv1 := Inception.init in_channels growth_channels ratio_0_2 true;
  conv2 := Inception.init (in_channels + 1 * growth_channels) growth_channels ratio_0_2 true;
  conv3 := Inception.init (in_channels + 2 * growth_channels) growth_channels ratio_0_2 true;
  conv4 := Inception.init (in_channels + 3 * growth_channels) growth_channels ratio_0_2 true;
  conv5 := Inception.init (in_channels + 4 * growth_channels) growth_channels ratio_0_2 false;
  scale_ratio := None
|}.

Definition forward (training : bool) (self : t) (input : Tensor) : result Tensor :=
  conv1 <- Inception.forward training (conv1 self) input ;;
  cat <- torch_cat1 [input; conv1] ;;
  conv2 <- Inception.forward training (conv2 self) cat ;;
  cat <- torch_cat1 [input; conv1; conv2] ;;
  conv3 <- Inception.forward training (conv3 self) cat ;;
  cat <- torch_cat1 [input; conv1; conv2; conv3] ;;
  conv4 <- Inception.forward training (conv4 self) cat ;;
  cat <- torch_cat1 [input; conv1; conv2; conv3; conv4] ;;
  conv5 <- Inception.forward training (conv5 self) cat ;;
  ratio <- getattr "scale_ratio"%string (scale_ratio self) ;;
  torch_add (mul_scalar conv5 ratio) input.

End ReceptiveFieldsDenseBlock.

(** ** [class ResidualInResidualFieldsDenseBlock] *)

Module ResidualInResidualFieldsDenseBlock.

Record t : Type := {
  RFDB1 : ReceptiveFieldsDenseBlock.t;
  RFDB2 : ReceptiveFieldsDenseBlock.t;
  RFDB3 : ReceptiveFieldsDenseBlock.t;
  scale_ratio : Q
}.

Definition init (in_channels growth_channels : Z) (scale_ratio : Q) : t := {|
  RFDB1 := ReceptiveFieldsDenseBlock.init in_channels growth_channels ratio_0_2;
  RFDB2 := ReceptiveFieldsDenseBlock.init in_channels growth_channels ratio_0_2;
  RFDB3 := ReceptiveFieldsDenseBlock.init in_channels growth_channels ratio_0_2;
  scale_ratio := scale_ratio
|}.

Definition forward (training : bool) (self : t) (input : Tensor) : result Tensor :=
  out <- ReceptiveFieldsDenseBlock.forward training (RFDB1 self) input ;;
  out <- ReceptiveFieldsDenseBlock.forward training (RFDB2 self) out ;;
  out <- ReceptiveFieldsDenseBlock.forward training (RFDB3 self) out ;;
  torch_add (mul_scalar out (scale_ratio self)) input.

End ResidualInResidualFieldsDenseBlock.

(** ** [class ResidualDenseBlock] *)

Module ResidualDenseBlock.

Record t : Type := {
  conv1 : list layer;
  conv2 : list layer;
  conv3 : list layer;
  conv4 : list layer;
  conv5 : list layer;
  scale_ratio : Q
}.

Definition init (in_channels growth_channels : Z) (scale_ratio : Q) : t := {|
  conv1 := [Conv2d (in_channels + 0 * growth_channels) growth_channels (sq 3) (sq 1) (sq 1) (sq 1);
            LeakyReLU ratio_0_2];
  conv2 := [Conv2d (in_channels + 1 * growth_channels) growth_channels (sq 3) (sq 1) (sq 1) (sq 1);
            LeakyReLU ratio_0_2];
  conv3 := [Conv2d (in_channels + 2 * growth_channels) growth_channels (sq 3) (sq 1) (sq 1) (sq 1);
            LeakyReLU ratio_0_2];
  conv4 := [Conv2d (in_channels + 3 * growth_channels) growth_channels (sq 3) (sq 1) (sq 1) (sq 1);
            LeakyReLU ratio_0_2];
  conv5 := [Conv2d (in_channels + 4 * growth_channels) in_channels (sq 3) (sq 1) (sq 1) (sq 1);
            LeakyReLU ratio_0_2];
  scale_ratio := scale_ratio
|}.

(** The correction the block computes before the skip connection:
    [conv5] of the forward pass. *)
Definition dense (training : bool) (self : t) (input : Tensor) : result Tensor :=
  conv1 <- Sequential_forward training (conv1 self) input ;;
  cat <- torch_cat1 [input; conv1] ;;
  conv2 <- Sequential_forward training (conv2 self) cat ;;
  cat <- torch_cat1 [input; conv1; conv2] ;;
  conv3 <- Sequential_forward training (conv3 self) cat ;;
  cat <- torch_cat1 [input; conv1; conv2; conv3] ;;
  conv4 <- Sequential_forward training (conv4 self) cat ;;
  cat <- torch_cat1 [input; conv1; conv2; conv3; conv4] ;;
  Sequential_forward training (conv5 self) cat.

Definition forward (training : bool) (self : t) (input : Tensor) : result Tensor :=
  conv5 <- dense training self input ;;
  torch_add (mul_scalar conv5 (scale_ratio self)) input.

End ResidualDenseBlock.

(** ** [class ResidualInResidualDenseBlock] *)

Module ResidualInResidualDenseBlock.

Record t : Type := {
  RBD1 : ResidualDenseBlock.t;
  RBD2 : ResidualDenseBlock.t;
  RBD3 : ResidualDenseBlock.t;
  scale_ratio : Q
}.

Definition init (in_channels growth_channels : Z) (scale_ratio : Q) : t := {|
  RBD1 := ResidualDenseBlock.init in_channels growth_channels ratio_0_2;
  RBD2 := ResidualDenseBlock.init in_channels growth_channels ratio_0_2;
  RBD3 := ResidualDenseBlock.init in_channels growth_channels ratio_0_2;
  scale_ratio := scale_ratio
|}.

(** The three inner blocks in sequence: [out] before the skip connection. *)
Definition trunk (training : bool) (self : t) (input : Tensor) : result Tensor :=
  out <- ResidualDenseBlock.forward training (RBD1 self) input ;;
  out <- ResidualDenseBlock.forward training (RBD2 self) out ;;
  ResidualDenseBlock.forward training (RBD3 self) out.

Definition forward (training : bool) (self : t) (input : Tensor) : result Tensor :=
  out <- trunk training self input ;;
  torch_add (mul_scalar out (scale_ratio self)) input.

End ResidualInResidualDenseBlock.

(** ** [class Generator] *)

(** [for _ in range(n): acc += items]. *)
Fixpoint for_range {A : Type} (n : nat) (items : list A) (acc : list A) : list A :=
  match n with
  | O => acc
  | S k => for_range k items (acc ++ items)
  end.

(** [nn.Sequential] over blocks of one class. *)
Fixpoint chain_forward {M : Type} (fwd : M -> Tensor -> result Tensor)
  (ms : list M) (x : Tensor) : result Tensor :=
  match ms with
  | [] => Ok x
  | m :: rest => y <- fwd m x ;; chain_forward fwd rest y
  end.

Module Generator.

(** What the upsampling stack holds: library layers and [Inception]
    blocks. *)
Inductive submodule : Type :=
| Layer (l : layer)
| Block (i : Inception.t).

Definition submodule_forward (training : bool) (m : submodule) (x : Tensor)
  : result Tensor :=
  match m with
  | Layer l => layer_forward training l x
  | Block i => Inception.forward training i x
  end.

Record t : Type := {
  conv1 : layer;
  residual_residual_dense_blocks : list ResidualInResidualDenseBlock.t;
  residual_residual_fields_dense_blocks : list ResidualInResidualFieldsDenseBlock.t;
  conv2 : Inception.t;
  upsampling : list submodule;
  conv3 : list layer
}.

(** [int(math.log(upscale_factor, 2))] for a positive integer: the floor of
    the binary logarithm.  The source divides two double-precision
    logarithms and truncates; the quotient truncates to the exact floor for
    every factor below [2^20], which is the range the statements about the
    number of stages are made for.  Far beyond it rounding shows: the doubles
    give 48 at [2^48 - 1], where the floor is 47. *)
Definition upsample_block_num (upscale_factor : Z) : nat :=
  Z.to_nat (Z.log2 upscale_factor).

(** The six modules one pass of the upsampling loop appends. *)
Definition upsampling_stage : list submodule := [
  Layer (Upsample 2);
  Block (Inception.init 64 64 ratio_0_2 true);
  Layer (Conv2d 64 256 (sq 3) (sq 1) (sq 1) (sq 1));
  Layer (LeakyReLU ratio_0_2);
  Layer (PixelShuffle 2);
  Block (Inception.init 64 64 ratio_0_2 true)
].

(** [math.log] raises [ValueError] (math domain error) below 1. *)
Definition init (upscale_factor : Z) : result t :=
  if upscale_factor <=? 0 then Err MathDomainError
  else
    let rrdb_layers :=
      for_range 16 [ResidualInResidualDenseBlock.init 64 32 ratio_0_2] [] in
    let rrfdb_layers :=
      for_range 8 [ResidualInResidualFieldsDenseBlock.init 64 32 ratio_0_2] [] in
    let upsampling :=
      for_range (upsample_block_num upscale_factor) upsampling_stage [] in
    Ok {|
      conv1 := Conv2d 3 64 (sq 3) (sq 1) (sq 1) (sq 1);
      residual_residual_dense_blocks := rrdb_layers;
      residual_residual_fields_dense_blocks := rrfdb_layers;
      conv2 := Inception.init 64 64 ratio_0_2 false;
      upsampling := upsampling;
      conv3 := [
        Conv2d 64 64 (sq 3) (sq 1) (sq 1) (sq 1);
        LeakyReLU ratio_0_2;
        Conv2d 64 3 (sq 3) (sq 1) (sq 1) (sq 1)
      ]
    |}.

Definition forward (training : bool) (self : t) (input : Tensor) : result Tensor :=
  out1 <- layer_forward training (conv1 self) input ;;
  out2 <- chain_forward (ResidualInResidualDenseBlock.forward training)
            (residual_residual_dense_blocks self) out1 ;;
  out2 <- chain_forward (ResidualInResidualFieldsDenseBlock.forward training)
            (residual_residual_fields_dense_blocks self) out2 ;;
  out <- torch_add out1 out2 ;;
  out <- Inception.forward training (conv2 self) out ;;
  out <- chain_forward (submodule_forward training) (upsampling self) out ;;
  Sequential_forward training (conv3 self) out.

End Generator.

(** ** Predicates and views used in the statements *)

(** The layers of a stack of convolutions, normalisations and activations;
    every convolution has a positive stride. *)
Definition conv_stack_layer (l : layer) : Prop :=
  match l with
  | Conv2d _ _ _ s _ _ => 0 < fst s /\ 0 < snd s
  | BatchNorm2d _ | LeakyReLU _ | ReLU => True
  | _ => False
  end.

(** Channel count after the stack, from [c] channels before it. *)
Fixpoint final_channels (ls : list layer) (c : Z) : Z :=
  match ls with
  | [] => c
  | Conv2d _ cout _ _ _ _ :: rest => final_channels rest cout
  | _ :: rest => final_channels rest c
  end.

(** A result that is a value or a rejection of operand sizes. *)
Definition shape_error_only {A : Type} (r : result A) : Prop :=
  match r with
  | Ok _ => True
  | Err (ShapeError _) => True
  | Err _ => False
  end.

(** An object of any class of the file. *)
Inductive nn_module : Type :=
| OfDiscriminator (m : Discriminator.t)
| OfGenerator (m : Generator.t)
| OfInception (m : Inception.t)
| OfReceptiveFieldsDenseBlock (m : ReceptiveFieldsDenseBlock.t)
| OfResidualInResidualFieldsDenseBlock (m : ResidualInResidualFieldsDenseBlock.t)
| OfResidualDenseBlock (m : ResidualDenseBlock.t)
| OfResidualInResidualDenseBlock (m : ResidualInResidualDenseBlock.t).

(** [m(x)] for a tensor argument [x]: the [forward] of the class of [m]. *)
Definition module_forward (training : bool) (m : nn_module) (x : Tensor) : result Tensor :=
  match m with
  | OfDiscriminator d => Discriminator.forward training d (Some x)
  | OfGenerator g => Generator.forward training g x
  | OfInception i => Inception.forward training i x
  | OfReceptiveFieldsDenseBlock b => ReceptiveFieldsDenseBlock.forward training b x
  | OfResidualInResidualFieldsDenseBlock b =>
      ResidualInResidualFieldsDenseBlock.forward training b x
  | OfResidualDenseBlock b => ResidualDenseBlock.forward training b x
  | OfResidualInResidualDenseBlock b => ResidualInResidualDenseBlock.forward training b x
  end.

(** The objects the constructors of the file return. *)
Inductive constructed : nn_module -> Prop :=
| new_Discriminator :
    constructed (OfDiscriminator Discriminator.init)
| new_Generator (f : Z) (g : Generator.t) :
    Generator.init f = Ok g -> constructed (OfGenerator g)
| new_Inception (cin cout : Z) (s : Q) (nl : bool) :
    constructed (OfInception (Inception.init cin cout s nl))
| new_ReceptiveFieldsDenseBlock (c g : Z) (s : Q) :
    constructed (OfReceptiveFieldsDenseBlock (ReceptiveFieldsDenseBlock.init c g s))
| new_ResidualInResidualFieldsDenseBlock (c g : Z) (s : Q) :
    constructed (OfResidualInResidualFieldsDenseBlock
                   (ResidualInResidualFieldsDenseBlock.init c g s))
| new_ResidualDenseBlock (c g : Z) (s : Q) :
    constructed (OfResidualDenseBlock (ResidualDenseBlock.init c g s))
| new_ResidualInResidualDenseBlock (c g : Z) (s : Q) :
    constructed (OfResidualInResidualDenseBlock (ResidualInResidualDenseBlock.init c g s)).

(** Channel count a layer is built for, when it is built for one. *)
Definition expected_channels (l : layer) : option Z :=
  match l with
  | Conv2d cin _ _ _ _ _ => Some cin
  | BatchNorm2d nf => Some nf
  | _ => None
  end.

(** Channel count a layer emits when it receives [c] channels. *)
Definition produced_channels (c : Z) (l : layer) : Z :=
  match l with
  | Conv2d _ cout _ _ _ _ => cout
  | PixelShuffle r => c / (r * r)
  | _ => c
  end.

(** Every layer of the stack receives the channel count it is built for,
    starting from [c] channels. *)
Fixpoint wired (c : Z) (ls : list layer) : bool :=
  match ls with
  | [] => true
  | l :: rest =>
      match expected_channels l with
      | Some e => c =? e
      | None => true
      end && wired (produced_channels c l) rest
  end.

(** The library layers of a mixed stack, in order. *)
Definition resampling_layers (ms : list Generator.submodule) : list layer :=
  flat_map (fun m => match m with
                     | Generator.Layer l => [l]
                     | Generator.Block _ => []
                     end) ms.

(** A layer other than batch normalisation. *)
Definition batch_norm_free (l : layer) : Prop :=
  match l with
  | BatchNorm2d _ => False
  | _ => True
  end.

(** * Properties *)

(** ** Concrete runs *)

Example Discriminator_eval_32 :
  Discriminator.forward false Discriminator.init (Some [1; 3; 32; 32]) = Ok [1; 1].
Proof. reflexivity. Qed.

Example Discriminator_train_single_32 :
  Discriminator.forward true Discriminator.init (Some [1; 3; 32; 32])
  = Err (ShapeError TooFewValues).
Proof. reflexivity. Qed.

Example Discriminator_31_too_small :
  Discriminator.forward false Discriminator.init (Some [4; 3; 31; 32])
  = Err (ShapeError KernelTooLarge).
Proof. reflexivity. Qed.

Example Discriminator_rectangular :
  Discriminator.forward true Discriminator.init (Some [2; 3; 100; 75]) = Ok [2; 1].
Proof. reflexivity. Qed.

Example ResidualInResidualDenseBlock_8x8 :
  ResidualInResidualDenseBlock.forward true
    (ResidualInResidualDenseBlock.init 64 32 ratio_0_2) [1; 64; 8; 8]
  = Ok [1; 64; 8; 8].
Proof. reflexivity. Qed.

Example Inception_branch1_8x8 :
  Sequential_forward true (Inception.branch1 (Inception.init 64 64 ratio_0_2 true))
    [1; 64; 8; 8]
  = Ok [1; 16; 10; 10].
Proof. reflexivity. Qed.

Example Inception_branch2_8x8 :
  Sequential_forward true (Inception.branch2 (Inception.init 64 64 ratio_0_2 true))
    [1; 64; 8; 8]
  = Ok [1; 16; 8; 8].
Proof. reflexivity. Qed.

Example Inception_64_8x8 :
  Inception.forward true (Inception.init 64 64 ratio_0_2 true) [1; 64; 8; 8]
  = Err (ShapeError (ChannelMismatch 4 8)).
Proof. reflexivity. Qed.

(** With 4 input channels [channels // 2 = 0]: the first convolution of
    [branch4] is built without output channels. *)
Example Inception_4_8x8 :
  Inception.forward true (Inception.init 4 64 ratio_0_2 true) [1; 4; 8; 8]
  = Err (ShapeError NoChannels).
Proof. reflexivity. Qed.

Example Generator_x4_8x8 :
  (gen <- Generator.init 4 ;; Generator.forward false gen [1; 3; 8; 8])
  = Err (ShapeError (ChannelMismatch 4 8)).
Proof. reflexivity. Qed.

Example Generator_factor_0 :
  (gen <- Generator.init 0 ;; Generator.forward false gen [1; 3; 8; 8])
  = Err MathDomainError.
Proof. reflexivity. Qed.

(** ** The error monad *)

Lemma bind_Ok_inv {A B : Type} (r : result A) (k : A -> result B) (b : B) :
  bind r k = Ok b -> exists a, r = Ok a /\ k a = Ok b.
Proof.
  destruct r as [a | e]; simpl; intros H; [exists a; auto | discriminate].
Qed.

(** ** Backend operators on sizes *)

Lemma sizes_eqb_refl (s : list Z) : sizes_eqb s s = true.
Proof.
  induction s as [| x s IH]; simpl; [reflexivity |].
  rewrite Z.eqb_refl, IH. reflexivity.
Qed.

Lemma sizes_eqb_eq (a b : list Z) : sizes_eqb a b = true -> a = b.
Proof.
  revert b; induction a as [| x a IH]; intros [| y b]; simpl; try discriminate; auto.
  intros H. apply andb_true_iff in H as [Hxy Hab].
  apply Z.eqb_eq in Hxy. subst y. f_equal. auto.
Qed.

Lemma broadcast_dim_refl (x : Z) : broadcast_dim x x = Some x.
Proof. unfold broadcast_dim. rewrite Z.eqb_refl. reflexivity. Qed.

Lemma broadcast_rev_refl (s : list Z) : broadcast_rev s s = Some s.
Proof.
  induction s as [| x s IH]; simpl; [reflexivity |].
  rewrite broadcast_dim_refl, IH. reflexivity.
Qed.

Lemma torch_add_same (t : Tensor) : torch_add t t = Ok t.
Proof.
  unfold torch_add. rewrite broadcast_rev_refl, rev_involutive. reflexivity.
Qed.

Lemma cat2_same (n c c' : Z) (s : list Z) :
  cat2 (n :: c :: s) (n :: c' :: s) = Ok (n :: c + c' :: s).
Proof. simpl. rewrite Z.eqb_refl, sizes_eqb_refl. reflexivity. Qed.

Lemma cat2_Ok_inv (a b t : Tensor) :
  cat2 a b = Ok t ->
  exists n c c' s, a = n :: c :: s /\ b = n :: c' :: s /\ t = n :: c + c' :: s.
Proof.
  destruct a as [| n [| c sa]]; try discriminate.
  destruct b as [| n' [| c' sb]]; try discriminate.
  simpl. destruct ((n =? n') && sizes_eqb sa sb) eqn:E; [| discriminate].
  apply andb_true_iff in E as [En Es].
  apply Z.eqb_eq in En. apply sizes_eqb_eq in Es. subst.
  intros [= <-]. exists n', c, c', sb. auto.
Qed.

Lemma conv_out_positive (size k s p d o : Z) :
  0 < s -> conv_out size k s p d = Some o -> 1 <= o.
Proof.
  unfold conv_out. intros Hs.
  destruct (d * (k - 1) + 1 <=? size + 2 * p) eqn:E; [| discriminate].
  apply Z.leb_le in E. intros Ho.
  pose proof (Z.div_pos (size + 2 * p - d * (k - 1) - 1) s) as Hq.
  set (q := (size + 2 * p - d * (k - 1) - 1) / s) in *.
  assert (o = q + 1) by congruence.
  assert (0 <= q) by (apply Hq; lia).
  lia.
Qed.

(** A convolution with kernel 3, stride 1 and padding 1 keeps the spatial
    extent. *)
Lemma conv3_same (tr : bool) (cin cout n c h w : Z) :
  c = cin -> 1 <= cin -> 1 <= cout -> 1 <= h -> 1 <= w ->
  layer_forward tr (Conv2d cin cout (sq 3) (sq 1) (sq 1) (sq 1)) [n; c; h; w]
  = Ok [n; cout; h; w].
Proof.
  intros -> Hcin Hcout Hh Hw. unfold layer_forward, conv_out, sq, fst, snd.
  rewrite Z.eqb_refl.
  replace (0 <? cin) with true by (symmetry; apply Z.ltb_lt; lia).
  replace (0 <? cout) with true by (symmetry; apply Z.ltb_lt; lia).
  cbv beta iota delta [andb].
  replace (1 * (3 - 1) + 1 <=? h + 2 * 1) with true by (symmetry; apply Z.leb_le; lia).
  replace (1 * (3 - 1) + 1 <=? w + 2 * 1) with true by (symmetry; apply Z.leb_le; lia).
  cbv iota. rewrite !Z.div_1_r. repeat f_equal; lia.
Qed.

(** A convolution with kernel 4, stride 2 and padding 1 halves it. *)
Lemma conv4_half (tr : bool) (cin cout n c h w : Z) :
  c = cin -> 1 <= cin -> 1 <= cout -> 2 <= h -> 2 <= w ->
  layer_forward tr (Conv2d cin cout (sq 4) (sq 2) (sq 1) (sq 1)) [n; c; h; w]
  = Ok [n; cout; h / 2; w / 2].
Proof.
  intros -> Hcin Hcout Hh Hw. unfold layer_forward, conv_out, sq, fst, snd.
  rewrite Z.eqb_refl.
  replace (0 <? cin) with true by (symmetry; apply Z.ltb_lt; lia).
  replace (0 <? cout) with true by (symmetry; apply Z.ltb_lt; lia).
  cbv beta iota delta [andb].
  replace (1 * (4 - 1) + 1 <=? h + 2 * 1) with true by (symmetry; apply Z.leb_le; lia).
  replace (1 * (4 - 1) + 1 <=? w + 2 * 1) with true by (symmetry; apply Z.leb_le; lia).
  assert (E : forall z, (z + 2 * 1 - 1 * (4 - 1) - 1) / 2 + 1 = z / 2).
  { intros z. replace (z + 2 * 1 - 1 * (4 - 1) - 1) with (z + (-1) * 2) by lia.
    rewrite Z.div_add by lia. lia. }
  cbv iota. rewrite !E. reflexivity.
Qed.

Lemma conv_Ok_inv (tr : bool) (cin cout : Z) (k s p d : Z * Z) (x y : Tensor) :
  layer_forward tr (Conv2d cin cout k s p d) x = Ok y ->
  exists n h w h' w',
    x = [n; cin; h; w] /\ y = [n; cout; h'; w'] /\
    conv_out h (fst k) (fst s) (fst p) (fst d) = Some h' /\
    conv_out w (snd k) (snd s) (snd p) (snd d) = Some w'.
Proof.
  simpl. destruct x as [| n [| c [| h [| w [| ? ?]]]]]; try discriminate.
  destruct (c =? cin) eqn:Ec; [| discriminate].
  apply Z.eqb_eq in Ec. subst c.
  destruct ((0 <? cin) && (0 <? cout)); [| discriminate].
  destruct (conv_out h _ _ _ _) as [h' |] eqn:Eh; [| discriminate].
  destruct (conv_out w _ _ _ _) as [w' |] eqn:Ew; [| discriminate].
  intros [= <-]. exists n, h, w, h', w'. auto.
Qed.

Lemma bn_Ok_inv (tr : bool) (nf : Z) (x y : Tensor) :
  layer_forward tr (BatchNorm2d nf) x = Ok y -> y = x.
Proof.
  simpl. destruct x as [| n [| c [| h [| w [| ? ?]]]]]; try discriminate.
  destruct (tr && (n * h * w =? 1)); [discriminate |].
  destruct (c =? nf); [| discriminate].
  intros [= <-]. reflexivity.
Qed.

Lemma bn_accepts (tr : bool) (nf n c h w : Z) :
  c = nf -> tr = false \/ n * h * w <> 1 ->
  layer_forward tr (BatchNorm2d nf) [n; c; h; w] = Ok [n; c; h; w].
Proof.
  intros -> Hm. simpl.
  replace (tr && (n * h * w =? 1)) with false.
  - rewrite Z.eqb_refl. reflexivity.
  - destruct Hm as [-> | Hne]; [reflexivity |].
    apply Z.eqb_neq in Hne. rewrite Hne, andb_false_r. reflexivity.
Qed.

Lemma conv3_act (tr : bool) (r : Q) (cin cout n c h w : Z) :
  c = cin -> 1 <= cin -> 1 <= cout -> 1 <= h -> 1 <= w ->
  Sequential_forward tr
    [Conv2d cin cout (sq 3) (sq 1) (sq 1) (sq 1); LeakyReLU r] [n; c; h; w]
  = Ok [n; cout; h; w].
Proof.
  intros Hc Hcin Hcout Hh Hw. cbn [Sequential_forward].
  rewrite conv3_same by assumption. reflexivity.
Qed.

(** ** Residual dense blocks keep the size of their input *)

Ltac cat_step :=
  cbn [torch_cat1 cat_onto]; rewrite ?cat2_same; cbn [bind].

Lemma ResidualDenseBlock_dense_size (tr : bool) (c g : Z) (s : Q) (n h w : Z) :
  1 <= c -> 1 <= g -> 1 <= h -> 1 <= w ->
  ResidualDenseBlock.dense tr (ResidualDenseBlock.init c g s) [n; c; h; w]
  = Ok [n; c; h; w].
Proof.
  intros Hc Hg Hh Hw.
  unfold ResidualDenseBlock.dense, ResidualDenseBlock.init.
  cbn [ResidualDenseBlock.conv1 ResidualDenseBlock.conv2 ResidualDenseBlock.conv3
       ResidualDenseBlock.conv4 ResidualDenseBlock.conv5].
  rewrite conv3_act by lia. cbn [bind]. cat_step.
  rewrite conv3_act by lia. cbn [bind]. cat_step.
  rewrite conv3_act by lia. cbn [bind]. cat_step.
  rewrite conv3_act by lia. cbn [bind]. cat_step.
  rewrite conv3_act by lia. reflexivity.
Qed.

Lemma ResidualDenseBlock_forward_size (tr : bool) (c g : Z) (s : Q) (n h w : Z) :
  1 <= c -> 1 <= g -> 1 <= h -> 1 <= w ->
  ResidualDenseBlock.forward tr (ResidualDenseBlock.init c g s) [n; c; h; w]
  = Ok [n; c; h; w].
Proof.
  intros Hc Hg Hh Hw. unfold ResidualDenseBlock.forward.
  rewrite ResidualDenseBlock_dense_size by assumption.
  cbn [bind]. unfold mul_scalar. apply torch_add_same.
Qed.

Lemma ResidualInResidualDenseBlock_forward_size
  (tr : bool) (c g : Z) (s : Q) (n h w : Z) :
  1 <= c -> 1 <= g -> 1 <= h -> 1 <= w ->
  ResidualInResidualDenseBlock.forward tr
    (ResidualInResidualDenseBlock.init c g s) [n; c; h; w]
  = Ok [n; c; h; w].
Proof.
  intros Hc Hg Hh Hw.
  unfold ResidualInResidualDenseBlock.forward, ResidualInResidualDenseBlock.trunk,
    ResidualInResidualDenseBlock.init.
  cbn [ResidualInResidualDenseBlock.RBD1 ResidualInResidualDenseBlock.RBD2
       ResidualInResidualDenseBlock.RBD3 ResidualInResidualDenseBlock.scale_ratio].
  rewrite !ResidualDenseBlock_forward_size by assumption. cbn [bind].
  rewrite ResidualDenseBlock_forward_size by assumption. cbn [bind].
  rewrite ResidualDenseBlock_forward_size by assumption. cbn [bind].
  unfold mul_scalar. apply torch_add_same.
Qed.

(** A chain of blocks that each keep the size keeps the size. *)
Lemma chain_forward_fixed {M : Type} (fwd : M -> Tensor -> result Tensor)
  (ms : list M) (x : Tensor) :
  (forall m, In m ms -> fwd m x = Ok x) -> chain_forward fwd ms x = Ok x.
Proof.
  induction ms as [| m ms IH]; intros H; cbn [chain_forward]; [reflexivity |].
  rewrite (H m) by (left; reflexivity). cbn [bind].
  apply IH. intros m' Hm'. apply H. right. exact Hm'.
Qed.

Lemma for_range_app {A : Type} (n : nat) (items acc : list A) :
  for_range n items acc = acc ++ concat (repeat items n).
Proof.
  revert acc. induction n as [| n IH]; intros acc; cbn [for_range repeat concat].
  - rewrite app_nil_r. reflexivity.
  - rewrite IH, app_assoc. reflexivity.
Qed.

Lemma for_range_single_In {A : Type} (n : nat) (a m : A) :
  In m (for_range n [a] []) -> m = a.
Proof.
  rewrite for_range_app. cbn [app]. induction n as [| n IH]; cbn [repeat concat app].
  - intros [].
  - intros [H | H]; [congruence | auto].
Qed.

Lemma Generator_init_Ok_inv (f : Z) (gen : Generator.t) :
  Generator.init f = Ok gen ->
  0 < f /\
  Generator.conv1 gen = Conv2d 3 64 (sq 3) (sq 1) (sq 1) (sq 1) /\
  Generator.residual_residual_dense_blocks gen
    = for_range 16 [ResidualInResidualDenseBlock.init 64 32 ratio_0_2] [] /\
  Generator.residual_residual_fields_dense_blocks gen
    = for_range 8 [ResidualInResidualFieldsDenseBlock.init 64 32 ratio_0_2] [] /\
  Generator.conv2 gen = Inception.init 64 64 ratio_0_2 false /\
  Generator.upsampling gen
    = for_range (Generator.upsample_block_num f) Generator.upsampling_stage [].
Proof.
  unfold Generator.init. destruct (f <=? 0) eqn:E; [discriminate |].
  apply Z.leb_gt in E. intros H. injection H as <-. cbn. auto 10.
Qed.

Lemma Generator_dense_chain_size (tr : bool) (f : Z) (gen : Generator.t) (n h w : Z) :
  Generator.init f = Ok gen -> 1 <= h -> 1 <= w ->
  chain_forward (ResidualInResidualDenseBlock.forward tr)
    (Generator.residual_residual_dense_blocks gen) [n; 64; h; w]
  = Ok [n; 64; h; w].
Proof.
  intros Hg Hh Hw.
  destruct (Generator_init_Ok_inv f gen Hg) as (_ & _ & -> & _).
  apply chain_forward_fixed. intros m Hm.
  apply for_range_single_In in Hm. subst m.
  apply ResidualInResidualDenseBlock_forward_size; first [assumption | lia].
Qed.

(** ** Stacks of convolutions, normalisations and activations *)

Lemma conv_stack_layer_Ok (tr : bool) (l : layer) (n c h w : Z) (y : Tensor) :
  conv_stack_layer l -> 1 <= h -> 1 <= w ->
  layer_forward tr l [n; c; h; w] = Ok y ->
  exists h' w', y = [n; final_channels [l] c; h'; w'] /\ 1 <= h' /\ 1 <= w'.
Proof.
  intros Hl Hh Hw Hy. destruct l; try contradiction.
  - apply conv_Ok_inv in Hy as (n0 & h0 & w0 & h' & w' & Hx & -> & Eh & Ew).
    injection Hx as <- _ _ _. destruct Hl as [Hs1 Hs2].
    exists h', w'. cbn [final_channels]. split; [reflexivity |].
    split; [exact (conv_out_positive _ _ _ _ _ _ Hs1 Eh)
           | exact (conv_out_positive _ _ _ _ _ _ Hs2 Ew)].
  - injection Hy as <-. exists h, w. auto.
  - injection Hy as <-. exists h, w. auto.
  - apply bn_Ok_inv in Hy. subst y. exists h, w. auto.
Qed.

Lemma final_channels_cons (l : layer) (rest : list layer) (c : Z) :
  final_channels (l :: rest) c = final_channels rest (final_channels [l] c).
Proof. destruct l; reflexivity. Qed.

Lemma conv_stack_Ok (tr : bool) (ls : list layer) :
  Forall conv_stack_layer ls ->
  forall (n c h w : Z) (y : Tensor),
    1 <= h -> 1 <= w ->
    Sequential_forward tr ls [n; c; h; w] = Ok y ->
    exists h' w', y = [n; final_channels ls c; h'; w'] /\ 1 <= h' /\ 1 <= w'.
Proof.
  induction 1 as [| l rest Hl Hrest IH]; intros n c h w y Hh Hw Hy.
  - injection Hy as <-. exists h, w. auto.
  - cbn [Sequential_forward] in Hy.
    apply bind_Ok_inv in Hy as (z & Hz & Hy).
    destruct (conv_stack_layer_Ok tr l n c h w z Hl Hh Hw Hz)
      as (h1 & w1 & -> & Hh1 & Hw1).
    rewrite final_channels_cons. exact (IH _ _ _ _ _ Hh1 Hw1 Hy).
Qed.

(** ** The discriminator *)

Lemma Discriminator_features_stack :
  Forall conv_stack_layer (Discriminator.features Discriminator.init).
Proof. cbn. repeat constructor; cbn; lia. Qed.

(** What the feature stack returns, whenever it returns: the batch size is
    kept, there are 512 channels, and the spatial extent is not empty. *)
Lemma Discriminator_features_Ok (tr : bool) (n c h w : Z) (y : Tensor) :
  Sequential_forward tr (Discriminator.features Discriminator.init) [n; c; h; w] = Ok y ->
  c = 3 /\ exists h' w', y = [n; 512; h'; w'] /\ 1 <= h' /\ 1 <= w'.
Proof.
  intros Hy.
  pose proof Discriminator_features_stack as Hst.
  remember (Discriminator.features Discriminator.init) as ls eqn:Els.
  cbn in Els. subst ls.
  inversion Hst as [| l rest Hl Hrest]; subst.
  cbn [Sequential_forward] in Hy.
  apply bind_Ok_inv in Hy as (z & Hz & Hy).
  apply conv_Ok_inv in Hz as (n0 & h0 & w0 & h1 & w1 & Hx & -> & Eh & Ew).
  injection Hx as <- -> _ _. split; [reflexivity |].
  apply conv_out_positive in Eh; [| cbn; lia].
  apply conv_out_positive in Ew; [| cbn; lia].
  exact (conv_stack_Ok tr _ Hrest n 64 h1 w1 y Eh Ew Hy).
Qed.

(** Pooling to 7 by 7, flattening and the two linear layers turn any
    non-empty 512-channel feature map into one score per batch element. *)
Lemma Discriminator_head_scores (tr : bool) (n h w : Z) :
  1 <= h -> 1 <= w ->
  (out <- layer_forward tr (Discriminator.avgpool Discriminator.init) [n; 512; h; w] ;;
   out <- torch_flatten1 out ;;
   Sequential_forward tr (Discriminator.classifier Discriminator.init) out)
  = Ok [n; 1].
Proof.
  intros Hh Hw.
  cbn [Discriminator.avgpool Discriminator.init layer_forward].
  replace (0 <? h) with true by (symmetry; apply Z.ltb_lt; lia).
  replace (0 <? w) with true by (symmetry; apply Z.ltb_lt; lia).
  reflexivity.
Qed.

Lemma Discriminator_forward_of_features (tr : bool) (n c h w : Z) (y : Tensor) :
  Sequential_forward tr (Discriminator.features Discriminator.init) [n; c; h; w] = Ok y ->
  Discriminator.forward tr Discriminator.init (Some [n; c; h; w]) = Ok [n; 1].
Proof.
  intros Hy.
  destruct (Discriminator_features_Ok tr n c h w y Hy) as (_ & h' & w' & -> & Hh & Hw).
  unfold Discriminator.forward, Sequential_call. rewrite Hy. cbn [bind].
  apply Discriminator_head_scores; assumption.
Qed.

Lemma LeakyReLU_forward (tr : bool) (r : Q) (x : Tensor) :
  layer_forward tr (LeakyReLU r) x = Ok x.
Proof. reflexivity. Qed.

Lemma batch_of_two_not_single (n a b : Z) :
  2 <= n -> 1 <= a -> 1 <= b -> n * a * b <> 1.
Proof. intros Hn Ha Hb. nia. Qed.

Lemma halves (z : Z) :
  32 <= z ->
  16 <= z / 2 /\ 8 <= z / 2 / 2 /\ 4 <= z / 2 / 2 / 2 /\ 2 <= z / 2 / 2 / 2 / 2 /\
  1 <= z / 2 / 2 / 2 / 2 / 2 /\ z / 2 / 2 / 2 / 2 / 2 = z / 32.
Proof.
  intros Hz.
  assert (E : z / 2 / 2 / 2 / 2 / 2 = z / 32) by (rewrite !Z.div_div by lia; reflexivity).
  assert (H1 : 16 <= z / 2) by (apply Z.div_le_lower_bound; lia).
  assert (H2 : 8 <= z / 2 / 2) by (apply Z.div_le_lower_bound; lia).
  assert (H3 : 4 <= z / 2 / 2 / 2) by (apply Z.div_le_lower_bound; lia).
  assert (H4 : 2 <= z / 2 / 2 / 2 / 2) by (apply Z.div_le_lower_bound; lia).
  assert (H5 : 1 <= z / 2 / 2 / 2 / 2 / 2) by (apply Z.div_le_lower_bound; lia).
  auto 10.
Qed.

Lemma Sequential_forward_cons (tr : bool) (l : layer) (rest : list layer) (x : Tensor) :
  Sequential_forward tr (l :: rest) x
  = (y <- layer_forward tr l x ;; Sequential_forward tr rest y).
Proof. reflexivity. Qed.

Lemma bind_Ok {A B : Type} (a : A) (k : A -> result B) : bind (Ok a) k = k a.
Proof. reflexivity. Qed.

Ltac features_step side :=
  rewrite Sequential_forward_cons;
  first [ rewrite conv3_same by side
        | rewrite conv4_half by side
        | rewrite bn_accepts by side
        | rewrite LeakyReLU_forward ];
  rewrite bind_Ok.

(** "Large enough for the five stride-2 stages" is 32 by 32: from there on
    the feature stack accepts every 3-channel image, in evaluation mode for
    every batch and in training mode for every batch of at least two (batch
    normalisation in training mode refuses a single value per channel). *)
Lemma Discriminator_features_accepts (tr : bool) (n h w : Z) :
  32 <= h -> 32 <= w -> tr = false \/ 2 <= n ->
  Sequential_forward tr (Discriminator.features Discriminator.init) [n; 3; h; w]
  = Ok [n; 512; h / 32; w / 32].
Proof.
  intros Hh Hw Hm.
  destruct (halves h Hh) as (h1 & h2 & h3 & h4 & h5 & Eh).
  destruct (halves w Hw) as (w1 & w2 & w3 & w4 & w5 & Ew).
  rewrite <- Eh, <- Ew.
  assert (Hbn : forall a b, 1 <= a -> 1 <= b -> tr = false \/ n * a * b <> 1).
  { intros a b Ha Hb. destruct Hm as [-> | Hn]; [left; reflexivity | right].
    apply batch_of_two_not_single; assumption. }
  cbn [Discriminator.features Discriminator.init].
  repeat features_step ltac:(first [reflexivity | lia | apply Hbn; lia]).
  reflexivity.
Qed.

Lemma Discriminator_forward_accepts (tr : bool) (n h w : Z) :
  32 <= h -> 32 <= w -> tr = false \/ 2 <= n ->
  Discriminator.forward tr Discriminator.init (Some [n; 3; h; w]) = Ok [n; 1].
Proof.
  intros Hh Hw Hm.
  unfold Discriminator.forward, Sequential_call.
  rewrite (Discriminator_features_accepts tr n h w Hh Hw Hm). cbn [bind].
  destruct (halves h Hh) as (_ & _ & _ & _ & h5 & Eh).
  destruct (halves w Hw) as (_ & _ & _ & _ & w5 & Ew).
  apply Discriminator_head_scores; lia.
Qed.

(** C4.  For every image tensor (batch, C, H, W) that the feature stack of
    the discriminator accepts, in training or evaluation mode,
    [Discriminator.forward] returns a tensor of size (batch, 1): one score
    per batch element, whatever the spatial extent.  The stack accepts every
    3-channel image of at least 32 by 32, which is what the five stride-2
    stages need (in training mode, from a batch of two on). *)
Theorem Discriminator_forward_scores (tr : bool) (n c h w : Z) :
  (forall y,
     Sequential_forward tr (Discriminator.features Discriminator.init) [n; c; h; w]
     = Ok y ->
     Discriminator.forward tr Discriminator.init (Some [n; c; h; w]) = Ok [n; 1])
  /\ (c = 3 -> 32 <= h -> 32 <= w -> tr = false \/ 2 <= n ->
      Sequential_forward tr (Discriminator.features Discriminator.init) [n; c; h; w]
      = Ok [n; 512; h / 32; w / 32]
      /\ Discriminator.forward tr Discriminator.init (Some [n; c; h; w]) = Ok [n; 1]).
Proof.
  split.
  - intros y. apply Discriminator_forward_of_features.
  - intros -> Hh Hw Hm. split.
    + apply Discriminator_features_accepts; assumption.
    + apply Discriminator_forward_accepts; assumption.
Qed.

Lemma Discriminator_forward_scores_witness :
  Sequential_forward true (Discriminator.features Discriminator.init) [2; 3; 32; 48]
    = Ok [2; 512; 1; 1]
  /\ Discriminator.forward true Discriminator.init (Some [2; 3; 32; 48]) = Ok [2; 1]
  /\ Discriminator.forward false Discriminator.init (Some [1; 3; 64; 64]) = Ok [1; 1].
Proof.
  assert (H : Sequential_forward true (Discriminator.features Discriminator.init)
                [2; 3; 32; 48] = Ok [2; 512; 1; 1]) by (vm_compute; reflexivity).
  split; [exact H |]. split.
  - exact (proj1 (Discriminator_forward_scores true 2 3 32 48) [2; 512; 1; 1] H).
  - apply (proj2 (Discriminator_forward_scores false 1 3 64 64));
      [reflexivity | lia | lia | left; reflexivity].
Defined.

(** ** The Inception block *)

Lemma conv_out_stride1 (size k p d o : Z) :
  conv_out size k 1 p d = Some o -> o = size + 2 * p - d * (k - 1).
Proof.
  unfold conv_out. destruct (d * (k - 1) + 1 <=? size + 2 * p); [| discriminate].
  intros Ho.
  assert (E : o = (size + 2 * p - d * (k - 1) - 1) / 1 + 1) by congruence.
  rewrite Z.div_1_r in E. lia.
Qed.

Lemma conv_stride1_step (tr : bool) (cin cout : Z) (k p d : Z * Z)
  (rest : list layer) (x y : Tensor) :
  Sequential_forward tr (Conv2d cin cout k (sq 1) p d :: rest) x = Ok y ->
  exists n h w,
    x = [n; cin; h; w] /\
    Sequential_forward tr rest
      [n; cout; h + 2 * fst p - fst d * (fst k - 1);
                w + 2 * snd p - snd d * (snd k - 1)] = Ok y.
Proof.
  cbn [Sequential_forward]. intros H.
  apply bind_Ok_inv in H as (z & Hz & H).
  apply conv_Ok_inv in Hz as (n & h & w & h' & w' & -> & -> & Eh & Ew).
  cbn [sq fst snd] in Eh, Ew.
  apply conv_out_stride1 in Eh, Ew. subst h' w'.
  exists n, h, w. split; [reflexivity | exact H].
Qed.

Lemma ReLU_step (tr : bool) (rest : list layer) (x y : Tensor) :
  Sequential_forward tr (ReLU :: rest) x = Ok y ->
  Sequential_forward tr rest x = Ok y.
Proof. intros H. exact H. Qed.

Ltac sizes_eq :=
  repeat match goal with
         | |- _ :: _ = _ :: _ => f_equal
         end;
  try reflexivity; try lia.

(** [branch1] ends in a 1x1 convolution with padding 1: it returns a map that
    is two larger along each spatial axis. *)
Lemma Inception_branch1_Ok (tr : bool) (cin cout : Z) (s : Q) (nl : bool)
  (x y : Tensor) :
  Sequential_forward tr (Inception.branch1 (Inception.init cin cout s nl)) x = Ok y ->
  exists n h w, x = [n; cin; h; w] /\ y = [n; cin / 4; h + 2; w + 2].
Proof.
  cbn [Inception.branch1 Inception.init]. intros H.
  apply conv_stride1_step in H as (n & h & w & -> & H).
  apply ReLU_step in H.
  apply conv_stride1_step in H as (n' & h' & w' & E & H).
  injection E as <- <- <-. injection H as <-.
  exists n, h, w. split; [reflexivity |].
  cbn [sq fst snd]. sizes_eq.
Qed.

(** [branch2] keeps the spatial extent. *)
Lemma Inception_branch2_Ok (tr : bool) (cin cout : Z) (s : Q) (nl : bool)
  (x y : Tensor) :
  Sequential_forward tr (Inception.branch2 (Inception.init cin cout s nl)) x = Ok y ->
  exists n h w, x = [n; cin; h; w] /\ y = [n; cin / 4; h; w].
Proof.
  cbn [Inception.branch2 Inception.init]. intros H.
  apply conv_stride1_step in H as (n & h & w & -> & H).
  apply ReLU_step in H.
  apply conv_stride1_step in H as (n1 & h1 & w1 & E1 & H).
  injection E1 as <- <- <-.
  apply ReLU_step in H.
  apply conv_stride1_step in H as (n2 & h2 & w2 & E2 & H).
  injection E2 as <- <- <-. injection H as <-.
  exists n, h, w. split; [reflexivity |].
  cbn [sq fst snd]. sizes_eq.
Qed.

(** The four branches are concatenated along the channel axis, which needs
    equal spatial extents: [branch1] and [branch2] never have them, so the
    forward pass of a constructed block returns on no input. *)
Lemma Inception_forward_never_Ok (tr : bool) (cin cout : Z) (s : Q) (nl : bool)
  (x y : Tensor) :
  Inception.forward tr (Inception.init cin cout s nl) x <> Ok y.
Proof.
  unfold Inception.forward. intros H.
  apply bind_Ok_inv in H as (sc & _ & H).
  apply bind_Ok_inv in H as (b1 & Hb1 & H).
  apply bind_Ok_inv in H as (b2 & Hb2 & H).
  apply bind_Ok_inv in H as (b3 & _ & H).
  apply bind_Ok_inv in H as (b4 & _ & H).
  apply bind_Ok_inv in H as (out & Hcat & _).
  apply Inception_branch1_Ok in Hb1 as (n & h & w & -> & ->).
  apply Inception_branch2_Ok in Hb2 as (n' & h' & w' & E & ->).
  injection E as <- <- <-.
  cbn [torch_cat1 cat_onto] in Hcat.
  apply bind_Ok_inv in Hcat as (acc & Hacc & _).
  apply cat2_Ok_inv in Hacc as (m & c & c' & sp & E1 & E2 & _).
  injection E1 as _ _ <-. injection E2 as _ _ E2 _. lia.
Qed.

(** ** Which exceptions a forward pass can raise *)

Lemma shape_error_only_bind {A B : Type} (r : result A) (k : A -> result B) :
  shape_error_only r -> (forall a, shape_error_only (k a)) ->
  shape_error_only (bind r k).
Proof. destruct r as [a | e]; simpl; auto. Qed.

Lemma shape_error_only_Err_inv {A : Type} (r : result A) :
  shape_error_only r -> (forall a, r <> Ok a) -> exists i, r = Err (ShapeError i).
Proof.
  destruct r as [a | [i | | |]]; simpl; intros H Hn; try contradiction.
  - exfalso. exact (Hn a eq_refl).
  - exists i. reflexivity.
Qed.

Ltac split_matches :=
  repeat match goal with
         | |- context [match ?e with _ => _ end] => destruct e
         end.

Lemma layer_forward_shape_error_only (tr : bool) (l : layer) (x : Tensor) :
  shape_error_only (layer_forward tr l x).
Proof.
  destruct l; unfold layer_forward, Linear_forward; split_matches; exact I.
Qed.

Lemma Sequential_forward_shape_error_only (tr : bool) (ls : list layer) (x : Tensor) :
  shape_error_only (Sequential_forward tr ls x).
Proof.
  revert x. induction ls as [| l ls IH]; intros x; cbn [Sequential_forward].
  - exact I.
  - apply shape_error_only_bind; [apply layer_forward_shape_error_only | exact IH].
Qed.

Lemma cat2_shape_error_only (a b : Tensor) : shape_error_only (cat2 a b).
Proof. unfold cat2. split_matches; exact I. Qed.

Lemma torch_cat1_shape_error_only (ts : list Tensor) : shape_error_only (torch_cat1 ts).
Proof.
  destruct ts as [| t rest]; [exact I |]. cbn [torch_cat1].
  revert t. induction rest as [| u rest IH]; intros t; cbn [cat_onto].
  - exact I.
  - apply shape_error_only_bind; [apply cat2_shape_error_only | exact IH].
Qed.

Lemma torch_add_shape_error_only (a b : Tensor) : shape_error_only (torch_add a b).
Proof. unfold torch_add. split_matches; exact I. Qed.

Lemma torch_flatten1_shape_error_only (t : Tensor) : shape_error_only (torch_flatten1 t).
Proof. unfold torch_flatten1. split_matches; exact I. Qed.

Lemma chain_forward_shape_error_only {M : Type} (fwd : M -> Tensor -> result Tensor)
  (ms : list M) (x : Tensor) :
  (forall m y, shape_error_only (fwd m y)) ->
  shape_error_only (chain_forward fwd ms x).
Proof.
  intros Hf. revert x. induction ms as [| m ms IH]; intros x; cbn [chain_forward].
  - exact I.
  - apply shape_error_only_bind; [apply Hf | exact IH].
Qed.

Create HintDb shapes.

#[local] Hint Resolve layer_forward_shape_error_only
  Sequential_forward_shape_error_only torch_cat1_shape_error_only
  torch_add_shape_error_only torch_flatten1_shape_error_only : shapes.

Ltac shape_errors :=
  repeat (apply shape_error_only_bind; [auto with shapes | intros ?]);
  auto with shapes.

Lemma Inception_forward_shape_error_only (tr : bool) (m : Inception.t) (x : Tensor) :
  shape_error_only (Inception.forward tr m x).
Proof.
  unfold Inception.forward. shape_errors.
  destruct (Inception.lrelu m); [auto with shapes | exact I].
Qed.

Lemma ResidualDenseBlock_forward_shape_error_only
  (tr : bool) (m : ResidualDenseBlock.t) (x : Tensor) :
  shape_error_only (ResidualDenseBlock.forward tr m x).
Proof.
  unfold ResidualDenseBlock.forward, ResidualDenseBlock.dense. shape_errors.
Qed.

Lemma ResidualInResidualDenseBlock_forward_shape_error_only
  (tr : bool) (m : ResidualInResidualDenseBlock.t) (x : Tensor) :
  shape_error_only (ResidualInResidualDenseBlock.forward tr m x).
Proof.
  unfold ResidualInResidualDenseBlock.forward, ResidualInResidualDenseBlock.trunk.
  repeat (apply shape_error_only_bind;
          [auto using ResidualDenseBlock_forward_shape_error_only with shapes | intros ?]);
  auto using ResidualDenseBlock_forward_shape_error_only with shapes.
Qed.

Lemma Discriminator_forward_shape_error_only
  (tr : bool) (m : Discriminator.t) (x : Tensor) :
  shape_error_only (Discriminator.forward tr m (Some x)).
Proof.
  unfold Discriminator.forward, Sequential_call. shape_errors.
Qed.

(** A constructed Inception block raises on every tensor, and what it raises
    is a rejection of sizes. *)
Lemma Inception_forward_raises (tr : bool) (cin cout : Z) (s : Q) (nl : bool)
  (x : Tensor) :
  exists i, Inception.forward tr (Inception.init cin cout s nl) x = Err (ShapeError i).
Proof.
  apply shape_error_only_Err_inv.
  - apply Inception_forward_shape_error_only.
  - intros y. apply Inception_forward_never_Ok.
Qed.

(** The first statement of [ReceptiveFieldsDenseBlock.forward] is such a
    call, so the block raises before its last line is reached. *)
Lemma ReceptiveFieldsDenseBlock_forward_raises (tr : bool) (c g : Z) (s : Q)
  (x : Tensor) :
  exists i,
    ReceptiveFieldsDenseBlock.forward tr (ReceptiveFieldsDenseBlock.init c g s) x
    = Err (ShapeError i).
Proof.
  destruct (Inception_forward_raises tr c g ratio_0_2 true x) as (i & Hi).
  exists i. unfold ReceptiveFieldsDenseBlock.forward.
  cbn [ReceptiveFieldsDenseBlock.conv1 ReceptiveFieldsDenseBlock.init].
  rewrite Hi. reflexivity.
Qed.

Lemma ResidualInResidualFieldsDenseBlock_forward_raises (tr : bool) (c g : Z) (s : Q)
  (x : Tensor) :
  exists i,
    ResidualInResidualFieldsDenseBlock.forward tr
      (ResidualInResidualFieldsDenseBlock.init c g s) x
    = Err (ShapeError i).
Proof.
  destruct (ReceptiveFieldsDenseBlock_forward_raises tr c g ratio_0_2 x) as (i & Hi).
  exists i. unfold ResidualInResidualFieldsDenseBlock.forward.
  cbn [ResidualInResidualFieldsDenseBlock.RFDB1 ResidualInResidualFieldsDenseBlock.init].
  rewrite Hi. reflexivity.
Qed.

(** [Generator.forward] sends the output of the dense blocks through the
    eight field blocks, the first of which raises. *)
Lemma Generator_forward_raises (tr : bool) (f : Z) (gen : Generator.t) (x : Tensor) :
  Generator.init f = Ok gen ->
  exists i, Generator.forward tr gen x = Err (ShapeError i).
Proof.
  intros Hg.
  destruct (Generator_init_Ok_inv f gen Hg) as (_ & _ & _ & Hf & _).
  unfold Generator.forward. rewrite Hf.
  pose proof (layer_forward_shape_error_only tr (Generator.conv1 gen) x) as H1.
  destruct (layer_forward tr (Generator.conv1 gen) x) as [out1 | [i | | |]];
    try contradiction; [| exists i; reflexivity].
  cbn [bind].
  pose proof (chain_forward_shape_error_only
                (ResidualInResidualDenseBlock.forward tr)
                (Generator.residual_residual_dense_blocks gen) out1
                (ResidualInResidualDenseBlock_forward_shape_error_only tr)) as H2.
  destruct (chain_forward _ (Generator.residual_residual_dense_blocks gen) out1)
    as [out2 | [i | | |]]; try contradiction; [| exists i; reflexivity].
  cbn [bind for_range app chain_forward].
  destruct (ResidualInResidualFieldsDenseBlock_forward_raises tr 64 32 ratio_0_2 out2)
    as (i & Hi).
  exists i. rewrite Hi. reflexivity.
Qed.

Lemma shape_error_only_of_raises {A : Type} (r : result A) :
  (exists i, r = Err (ShapeError i)) -> shape_error_only r.
Proof. intros (i & ->). exact I. Qed.

Lemma shape_error_only_not_attribute {A : Type} (r : result A) (name : String.string) :
  shape_error_only r -> r <> Err (AttributeError name).
Proof. intros H E. rewrite E in H. exact H. Qed.

(** C3.  For every object a constructor of the file returns, in training or
    evaluation mode, and every tensor argument, the forward pass either
    returns or raises a rejection of operand sizes; in particular it raises
    no [AttributeError].  ([ReceptiveFieldsDenseBlock.forward] reads an
    attribute its constructor never assigns, on its last line; the first line
    of that method already raises a size error on every tensor, so the read is
    never reached.) *)
Theorem forward_raises_only_shape_errors
  (tr : bool) (m : nn_module) (x : Tensor) :
  constructed m ->
  shape_error_only (module_forward tr m x)
  /\ forall name, module_forward tr m x <> Err (AttributeError name).
Proof.
  intros Hm.
  assert (H : shape_error_only (module_forward tr m x)).
  { destruct Hm as [| f g Hg | cin cout s nl | c g s | c g s | c g s | c g s];
      cbn [module_forward].
    - apply Discriminator_forward_shape_error_only.
    - apply shape_error_only_of_raises. exact (Generator_forward_raises tr f g x Hg).
    - apply Inception_forward_shape_error_only.
    - apply shape_error_only_of_raises. apply ReceptiveFieldsDenseBlock_forward_raises.
    - apply shape_error_only_of_raises.
      apply ResidualInResidualFieldsDenseBlock_forward_raises.
    - apply ResidualDenseBlock_forward_shape_error_only.
    - apply ResidualInResidualDenseBlock_forward_shape_error_only. }
  split; [exact H |].
  intros name. apply shape_error_only_not_attribute. exact H.
Qed.

Lemma forward_raises_only_shape_errors_witness :
  constructed (OfReceptiveFieldsDenseBlock (ReceptiveFieldsDenseBlock.init 64 32 ratio_0_2))
  /\ shape_error_only
       (module_forward true
          (OfReceptiveFieldsDenseBlock (ReceptiveFieldsDenseBlock.init 64 32 ratio_0_2))
          [1; 64; 8; 8])
  /\ forall name,
       module_forward true
         (OfReceptiveFieldsDenseBlock (ReceptiveFieldsDenseBlock.init 64 32 ratio_0_2))
         [1; 64; 8; 8]
       <> Err (AttributeError name).
Proof.
  split; [constructor |].
  apply (forward_raises_only_shape_errors true
           (OfReceptiveFieldsDenseBlock (ReceptiveFieldsDenseBlock.init 64 32 ratio_0_2))
           [1; 64; 8; 8]).
  constructor.
Defined.

(** C9.  [Discriminator.forward()] without an argument binds [input] to
    [None]; the feature stack then raises [TypeError], in either mode, and no
    score is returned. *)
Theorem Discriminator_forward_without_argument (tr : bool) :
  Discriminator.forward tr Discriminator.init None = Err TypeError
  /\ forall y, Discriminator.forward tr Discriminator.init None <> Ok y.
Proof.
  split; [reflexivity |]. intros y H. discriminate H.
Qed.

(** ** Where exactly the Inception block raises on an image *)

Lemma conv_stride1_accepts (tr : bool) (cin cout : Z) (k p d : Z * Z) (n c h w : Z) :
  c = cin -> 1 <= cin -> 1 <= cout ->
  fst d * (fst k - 1) + 1 <= h + 2 * fst p ->
  snd d * (snd k - 1) + 1 <= w + 2 * snd p ->
  layer_forward tr (Conv2d cin cout k (sq 1) p d) [n; c; h; w]
  = Ok [n; cout; h + 2 * fst p - fst d * (fst k - 1);
                 w + 2 * snd p - snd d * (snd k - 1)].
Proof.
  intros -> Hcin Hcout Hh Hw. unfold layer_forward, conv_out. cbn [sq fst snd].
  rewrite Z.eqb_refl.
  replace (0 <? cin) with true by (symmetry; apply Z.ltb_lt; lia).
  replace (0 <? cout) with true by (symmetry; apply Z.ltb_lt; lia).
  cbv beta iota delta [andb].
  apply Z.leb_le in Hh, Hw. rewrite Hh, Hw. rewrite !Z.div_1_r.
  f_equal. sizes_eq.
Qed.

Lemma ReLU_forward (tr : bool) (x : Tensor) : layer_forward tr ReLU x = Ok x.
Proof. reflexivity. Qed.

Lemma conv_rejects_channels (tr : bool) (cin cout : Z) (k s p d : Z * Z) (n c h w : Z) :
  c <> cin ->
  layer_forward tr (Conv2d cin cout k s p d) [n; c; h; w]
  = Err (ShapeError (ChannelMismatch cin c)).
Proof.
  intros Hc. unfold layer_forward. apply Z.eqb_neq in Hc. rewrite Hc. reflexivity.
Qed.

Lemma quarter_half_differ (cin : Z) : 8 <= cin -> cin / 4 / 2 <> cin / 4 / 4.
Proof.
  intros H.
  assert (H2 : 2 <= cin / 4) by (apply Z.div_le_lower_bound; lia).
  assert (E : cin / 4 / 4 = cin / 4 / 2 / 2) by (rewrite !Z.div_div by lia; reflexivity).
  assert (H1 : 1 <= cin / 4 / 2) by (apply Z.div_le_lower_bound; lia).
  assert (Hlt : cin / 4 / 2 / 2 < cin / 4 / 2) by (apply Z.div_lt; lia).
  lia.
Qed.

Ltac branch_step :=
  cbn [Sequential_forward];
  first [ rewrite conv_stride1_accepts by (cbn [sq fst snd]; first [reflexivity | lia])
        | rewrite ReLU_forward ];
  cbn [bind sq fst snd].

(** In [branch4] the first convolution emits [channels // 2] channels and the
    second one is built for [channels // 4]. *)
Lemma Inception_branch4_raises (tr : bool) (cin cout : Z) (s : Q) (nl : bool)
  (n h w : Z) :
  8 <= cin -> 1 <= h -> 1 <= w ->
  Sequential_forward tr (Inception.branch4 (Inception.init cin cout s nl)) [n; cin; h; w]
  = Err (ShapeError (ChannelMismatch (cin / 4 / 4) (cin / 4 / 2))).
Proof.
  intros Hc Hh Hw. cbn [Inception.branch4 Inception.init].
  assert (H2 : 2 <= cin / 4) by (apply Z.div_le_lower_bound; lia).
  assert (H1 : 1 <= cin / 4 / 2) by (apply Z.div_le_lower_bound; lia).
  do 2 branch_step. cbn [Sequential_forward].
  rewrite conv_rejects_channels by (apply quarter_half_differ; exact Hc).
  reflexivity.
Qed.

Lemma Inception_branch1_accepts (tr : bool) (cin cout : Z) (s : Q) (nl : bool)
  (n h w : Z) :
  4 <= cin -> 1 <= h -> 1 <= w ->
  Sequential_forward tr (Inception.branch1 (Inception.init cin cout s nl)) [n; cin; h; w]
  = Ok [n; cin / 4; h + 2; w + 2].
Proof.
  intros Hc Hh Hw. cbn [Inception.branch1 Inception.init].
  assert (H1 : 1 <= cin / 4) by (apply Z.div_le_lower_bound; lia).
  do 3 branch_step. cbn [Sequential_forward]. f_equal. sizes_eq.
Qed.

Lemma Inception_branch2_accepts (tr : bool) (cin cout : Z) (s : Q) (nl : bool)
  (n h w : Z) :
  4 <= cin -> 1 <= h -> 1 <= w ->
  Sequential_forward tr (Inception.branch2 (Inception.init cin cout s nl)) [n; cin; h; w]
  = Ok [n; cin / 4; h; w].
Proof.
  intros Hc Hh Hw. cbn [Inception.branch2 Inception.init].
  assert (H1 : 1 <= cin / 4) by (apply Z.div_le_lower_bound; lia).
  do 5 branch_step. cbn [Sequential_forward]. f_equal. sizes_eq.
Qed.

Lemma Inception_branch3_accepts (tr : bool) (cin cout : Z) (s : Q) (nl : bool)
  (n h w : Z) :
  4 <= cin -> 1 <= h -> 1 <= w ->
  Sequential_forward tr (Inception.branch3 (Inception.init cin cout s nl)) [n; cin; h; w]
  = Ok [n; cin / 4; h; w].
Proof.
  intros Hc Hh Hw. cbn [Inception.branch3 Inception.init].
  assert (H1 : 1 <= cin / 4) by (apply Z.div_le_lower_bound; lia).
  do 5 branch_step. cbn [Sequential_forward]. f_equal. sizes_eq.
Qed.

Lemma Inception_forward_image_raises (tr : bool) (cin cout : Z) (s : Q) (nl : bool)
  (n h w : Z) :
  8 <= cin -> 1 <= cout -> 1 <= h -> 1 <= w ->
  Inception.forward tr (Inception.init cin cout s nl) [n; cin; h; w]
  = Err (ShapeError (ChannelMismatch (cin / 4 / 4) (cin / 4 / 2))).
Proof.
  intros Hc Hcout Hh Hw. unfold Inception.forward.
  rewrite Inception_branch1_accepts, Inception_branch2_accepts,
    Inception_branch3_accepts, Inception_branch4_raises by (assumption || lia).
  cbn [Inception.shortcut Inception.init].
  rewrite conv_stride1_accepts by (cbn [sq fst snd]; first [reflexivity | lia]).
  reflexivity.
Qed.

Lemma Generator_forward_image_raises (tr : bool) (f : Z) (gen : Generator.t)
  (n h w : Z) :
  Generator.init f = Ok gen -> 1 <= h -> 1 <= w ->
  Generator.forward tr gen [n; 3; h; w] = Err (ShapeError (ChannelMismatch 4 8)).
Proof.
  intros Hg Hh Hw.
  pose proof (Generator_dense_chain_size tr f gen n h w Hg Hh Hw) as Hchain.
  destruct (Generator_init_Ok_inv f gen Hg) as (_ & Hc1 & _ & Hf & _).
  unfold Generator.forward.
  rewrite Hc1, conv3_same by first [reflexivity | assumption | lia]. cbn [bind].
  rewrite Hchain, Hf. cbn [bind for_range app chain_forward].
  unfold ResidualInResidualFieldsDenseBlock.forward at 1.
  cbn [ResidualInResidualFieldsDenseBlock.RFDB1 ResidualInResidualFieldsDenseBlock.init].
  unfold ReceptiveFieldsDenseBlock.forward at 1.
  cbn [ReceptiveFieldsDenseBlock.conv1 ReceptiveFieldsDenseBlock.init].
  rewrite Inception_forward_image_raises by (assumption || lia).
  reflexivity.
Qed.

(** C8.  For positive channel and growth counts and a non-empty spatial
    extent, [ResidualDenseBlock.forward] and
    [ResidualInResidualDenseBlock.forward] return a tensor of exactly the
    size (N, in_channels, H, W) of their input, and the sixteen blocks
    [residual_residual_dense_blocks] of a generator map the 64-channel output
    [out1] of [conv1] to a tensor of the same size.  The skip connection is
    not reached: [Generator.forward] first sends that tensor through the
    field blocks, the first of which raises, so the statements of
    [forward] up to and including [torch.add(out1, out2)] end in the channel
    mismatch of the first Inception block. *)
Theorem residual_dense_blocks_preserve_size
  (tr : bool) (c g : Z) (s : Q) (n h w : Z) :
  1 <= c -> 1 <= g -> 1 <= h -> 1 <= w ->
  ResidualDenseBlock.forward tr (ResidualDenseBlock.init c g s) [n; c; h; w]
    = Ok [n; c; h; w]
  /\ ResidualInResidualDenseBlock.forward tr
       (ResidualInResidualDenseBlock.init c g s) [n; c; h; w]
    = Ok [n; c; h; w]
  /\ forall (f : Z) (gen : Generator.t),
       Generator.init f = Ok gen ->
       length (Generator.residual_residual_dense_blocks gen) = 16%nat
       /\ chain_forward (ResidualInResidualDenseBlock.forward tr)
            (Generator.residual_residual_dense_blocks gen) [n; 64; h; w]
          = Ok [n; 64; h; w]
       /\ (out1 <- layer_forward tr (Generator.conv1 gen) [n; 3; h; w] ;;
           out2 <- chain_forward (ResidualInResidualDenseBlock.forward tr)
                     (Generator.residual_residual_dense_blocks gen) out1 ;;
           out2 <- chain_forward (ResidualInResidualFieldsDenseBlock.forward tr)
                     (Generator.residual_residual_fields_dense_blocks gen) out2 ;;
           torch_add out1 out2)
          = Err (ShapeError (ChannelMismatch 4 8)).
Proof.
  intros Hc Hg Hh Hw. split; [| split].
  - apply ResidualDenseBlock_forward_size; assumption.
  - apply ResidualInResidualDenseBlock_forward_size; assumption.
  - intros f gen Hgen.
    pose proof (Generator_dense_chain_size tr f gen n h w Hgen Hh Hw) as Hchain.
    destruct (Generator_init_Ok_inv f gen Hgen) as (_ & Hc1 & Hr & Hf & _).
    split; [| split].
    + rewrite Hr. reflexivity.
    + exact Hchain.
    + rewrite Hc1, conv3_same by first [reflexivity | assumption | lia]. cbn [bind].
      rewrite Hchain, Hf. cbn [bind for_range app chain_forward].
      unfold ResidualInResidualFieldsDenseBlock.forward at 1.
      cbn [ResidualInResidualFieldsDenseBlock.RFDB1
           ResidualInResidualFieldsDenseBlock.init].
      unfold ReceptiveFieldsDenseBlock.forward at 1.
      cbn [ReceptiveFieldsDenseBlock.conv1 ReceptiveFieldsDenseBlock.init].
      rewrite Inception_forward_image_raises by (assumption || lia).
      reflexivity.
Qed.

Lemma residual_dense_blocks_preserve_size_witness :
  1 <= 64 /\ 1 <= 32 /\ 1 <= 8
  /\ ResidualDenseBlock.forward true (ResidualDenseBlock.init 64 32 ratio_0_2)
       [1; 64; 8; 8]
     = Ok [1; 64; 8; 8]
  /\ ResidualInResidualDenseBlock.forward true
       (ResidualInResidualDenseBlock.init 64 32 ratio_0_2) [1; 64; 8; 8]
     = Ok [1; 64; 8; 8]
  /\ exists gen,
       Generator.init 4 = Ok gen
       /\ length (Generator.residual_residual_dense_blocks gen) = 16%nat
       /\ chain_forward (ResidualInResidualDenseBlock.forward true)
            (Generator.residual_residual_dense_blocks gen) [1; 64; 8; 8]
          = Ok [1; 64; 8; 8]
       /\ (out1 <- layer_forward true (Generator.conv1 gen) [1; 3; 8; 8] ;;
           out2 <- chain_forward (ResidualInResidualDenseBlock.forward true)
                     (Generator.residual_residual_dense_blocks gen) out1 ;;
           out2 <- chain_forward (ResidualInResidualFieldsDenseBlock.forward true)
                     (Generator.residual_residual_fields_dense_blocks gen) out2 ;;
           torch_add out1 out2)
          = Err (ShapeError (ChannelMismatch 4 8)).
Proof.
  assert (H64 : 1 <= 64) by lia.
  assert (H32 : 1 <= 32) by lia.
  assert (H8 : 1 <= 8) by lia.
  destruct (residual_dense_blocks_preserve_size true 64 32 ratio_0_2 1 8 8
              H64 H32 H8 H8) as (H1 & H2 & H3).
  split; [exact H64 |]. split; [exact H32 |]. split; [exact H8 |].
  split; [exact H1 |]. split; [exact H2 |].
  eexists. split; [reflexivity |]. apply (H3 4). reflexivity.
Defined.

(** ** Channel wiring, read off the layer list *)

Lemma Discriminator_features_wired :
  wired 3 (Discriminator.features Discriminator.init) = true.
Proof. reflexivity. Qed.

Lemma Inception_branches123_wired (cin cout : Z) (s : Q) (nl : bool) :
  wired cin (Inception.branch1 (Inception.init cin cout s nl)) = true
  /\ wired cin (Inception.branch2 (Inception.init cin cout s nl)) = true
  /\ wired cin (Inception.branch3 (Inception.init cin cout s nl)) = true.
Proof.
  cbn [Inception.branch1 Inception.branch2 Inception.branch3 Inception.init
       wired expected_channels produced_channels].
  rewrite !Z.eqb_refl. auto.
Qed.

Lemma Inception_branch4_not_wired (cin cout : Z) (s : Q) (nl : bool) :
  8 <= cin -> wired cin (Inception.branch4 (Inception.init cin cout s nl)) = false.
Proof.
  intros Hc.
  cbn [Inception.branch4 Inception.init wired expected_channels produced_channels].
  rewrite Z.eqb_refl.
  replace (cin / 4 / 2 =? cin / 4 / 4) with false
    by (symmetry; apply Z.eqb_neq, quarter_half_differ; exact Hc).
  reflexivity.
Qed.

(** C1.  A generator built for any upscale factor [f], run on any image
    tensor (batch, 3, H, W), does not return a tensor of size
    (batch, 3, H*f, W*f): it raises.  After [conv1] and the sixteen dense
    blocks, the first Inception block of the first field block rejects its
    operand: a convolution built for 4 channels receives 8. *)
Theorem Generator_forward_raises_on_images
  (tr : bool) (f : Z) (gen : Generator.t) (n h w : Z) :
  Generator.init f = Ok gen -> 1 <= h -> 1 <= w ->
  Generator.forward tr gen [n; 3; h; w] = Err (ShapeError (ChannelMismatch 4 8))
  /\ Generator.forward tr gen [n; 3; h; w] <> Ok [n; 3; h * f; w * f].
Proof.
  intros Hg Hh Hw.
  rewrite (Generator_forward_image_raises tr f gen n h w Hg Hh Hw).
  split; [reflexivity | discriminate].
Qed.

Lemma Generator_forward_raises_on_images_witness :
  exists gen,
    Generator.init 4 = Ok gen
    /\ Generator.forward false gen [1; 3; 8; 8] = Err (ShapeError (ChannelMismatch 4 8))
    /\ Generator.forward false gen [1; 3; 8; 8] <> Ok [1; 3; 8 * 4; 8 * 4].
Proof.
  eexists. split; [reflexivity |].
  apply (Generator_forward_raises_on_images false 4 _ 1 8 8); [reflexivity | lia | lia].
Defined.

(** C2.  Inside [branch4] of every Inception block built for at least 8 input
    channels (the generator builds them for 64, 96, 128, 160 and 192), the
    channel counts of consecutive layers do not match: the first convolution
    emits [in_channels // 4 // 2] channels, the next one is built for
    [in_channels // 4 // 4], and the branch raises on every image. *)
Theorem Inception_branch4_channel_mismatch
  (tr : bool) (cin cout : Z) (s : Q) (nl : bool) (n h w : Z) :
  8 <= cin -> 1 <= h -> 1 <= w ->
  wired cin (Inception.branch4 (Inception.init cin cout s nl)) = false
  /\ cin / 4 / 2 <> cin / 4 / 4
  /\ Sequential_forward tr (Inception.branch4 (Inception.init cin cout s nl))
       [n; cin; h; w]
     = Err (ShapeError (ChannelMismatch (cin / 4 / 4) (cin / 4 / 2))).
Proof.
  intros Hc Hh Hw. split; [| split].
  - apply Inception_branch4_not_wired. exact Hc.
  - apply quarter_half_differ. exact Hc.
  - apply Inception_branch4_raises; assumption.
Qed.

Lemma Inception_branch4_channel_mismatch_witness :
  exists gen,
    Generator.init 4 = Ok gen
    /\ wired 64 (Inception.branch4 (Generator.conv2 gen)) = false
    /\ 64 / 4 / 2 <> 64 / 4 / 4
    /\ Sequential_forward true (Inception.branch4 (Generator.conv2 gen)) [1; 64; 8; 8]
       = Err (ShapeError (ChannelMismatch (64 / 4 / 4) (64 / 4 / 2))).
Proof.
  eexists. split; [reflexivity |].
  apply (Inception_branch4_channel_mismatch true 64 64 ratio_0_2 false 1 8 8); lia.
Defined.

(** The last stack of the generator does map 64 channels to 3. *)
Lemma Generator_conv3_channels (tr : bool) (f : Z) (gen : Generator.t) (n h w : Z) :
  Generator.init f = Ok gen -> 1 <= h -> 1 <= w ->
  Sequential_forward tr (Generator.conv3 gen) [n; 64; h; w] = Ok [n; 3; h; w].
Proof.
  unfold Generator.init. destruct (f <=? 0); [discriminate |].
  intros Hg Hh Hw. injection Hg as <-. cbn [Generator.conv3 Sequential_forward].
  rewrite conv3_same by first [reflexivity | assumption | lia]. cbn [bind].
  rewrite LeakyReLU_forward. cbn [bind].
  rewrite conv3_same by first [reflexivity | assumption | lia]. reflexivity.
Qed.

Lemma Upsample_forward (tr : bool) (f n c h w : Z) :
  1 <= h -> 1 <= w ->
  layer_forward tr (Upsample f) [n; c; h; w] = Ok [n; c; h * f; w * f].
Proof.
  intros Hh Hw. cbn [layer_forward].
  replace (0 <? h) with true by (symmetry; apply Z.ltb_lt; lia).
  replace (0 <? w) with true by (symmetry; apply Z.ltb_lt; lia).
  reflexivity.
Qed.

(** Apart from its Inception blocks, one upsampling stage holds an
    [Upsample] by 2 and a [PixelShuffle] by 2: together they scale by 4. *)
Lemma upsampling_stage_resamples_by_four (tr : bool) (n h w : Z) :
  1 <= h -> 1 <= w ->
  Sequential_forward tr (resampling_layers Generator.upsampling_stage) [n; 64; h; w]
  = Ok [n; 64; h * 2 * 2; w * 2 * 2].
Proof.
  intros Hh Hw.
  cbn [resampling_layers Generator.upsampling_stage flat_map app Sequential_forward].
  rewrite Upsample_forward by assumption. cbn [bind].
  rewrite conv3_same by (reflexivity || lia). cbn [bind].
  reflexivity.
Qed.

(** Constructing a generator and running it ends in an exception, for every
    upscale factor and every tensor argument. *)
Lemma Generator_forward_never_returns (tr : bool) (f : Z) (x : Tensor) :
  exists e, (gen <- Generator.init f ;; Generator.forward tr gen x) = Err e.
Proof.
  destruct (Generator.init f) as [gen | e] eqn:Hg.
  - destruct (Generator_forward_raises tr f gen x Hg) as (i & Hi).
    exists (ShapeError i). exact Hi.
  - exists e. reflexivity.
Qed.

(** Whatever [Generator.forward] returns is what its last stack returned. *)
Lemma Generator_forward_Ok_inv (tr : bool) (gen : Generator.t) (x y : Tensor) :
  Generator.forward tr gen x = Ok y ->
  exists z, Sequential_forward tr (Generator.conv3 gen) z = Ok y.
Proof.
  unfold Generator.forward. intros H.
  apply bind_Ok_inv in H as (out1 & _ & H).
  apply bind_Ok_inv in H as (out2 & _ & H).
  apply bind_Ok_inv in H as (out2' & _ & H).
  apply bind_Ok_inv in H as (out & _ & H).
  apply bind_Ok_inv in H as (out' & _ & H).
  apply bind_Ok_inv in H as (z & _ & H).
  exists z. exact H.
Qed.

(** C5.  Whenever [Generator.forward] returns a tensor, that tensor has 3
    channels, because the last stack ends in a convolution from 64 to 3
    channels.  The statement is about [forward] on every generator object
    that carries the last stack [conv3] the constructor builds, whatever its
    other attributes hold: on the objects the constructor itself returns,
    [forward] raises on every input ([Generator_forward_never_returns]). *)
Theorem Generator_forward_output_channels
  (tr : bool) (f : Z) (built gen : Generator.t) (x y : Tensor) :
  Generator.init f = Ok built ->
  Generator.conv3 gen = Generator.conv3 built ->
  Generator.forward tr gen x = Ok y ->
  exists n h w, y = [n; 3; h; w].
Proof.
  intros Hb Hc Hy.
  apply Generator_forward_Ok_inv in Hy as (z & Hz).
  rewrite Hc in Hz. revert Hb Hz. unfold Generator.init.
  destruct (f <=? 0); [discriminate |].
  intros Hb Hz. injection Hb as <-. cbn [Generator.conv3] in Hz.
  apply conv_stride1_step in Hz as (n & h & w & -> & Hz).
  cbn [Sequential_forward] in Hz.
  rewrite LeakyReLU_forward in Hz. cbn [bind] in Hz.
  apply bind_Ok_inv in Hz as (u & Hu & Hz).
  apply conv_Ok_inv in Hu as (n' & h0 & w0 & h' & w' & _ & -> & _ & _).
  injection Hz as <-. exists n', h', w'. reflexivity.
Qed.

Lemma Generator_forward_output_channels_witness :
  exists built gen,
    Generator.init 4 = Ok built
    /\ Generator.conv3 gen = Generator.conv3 built
    /\ Generator.forward true gen [1; 3; 8; 8] = Ok [1; 3; 8; 8]
    /\ exists n h w, [1; 3; 8; 8] = [n; 3; h; w].
Proof.
  pose (one_by_one := [Conv2d 64 16 (sq 1) (sq 1) (sq 0) (sq 1)]).
  pose (block := {| Inception.shortcut := Conv2d 64 64 (sq 1) (sq 1) (sq 0) (sq 1);
                    Inception.branch1 := one_by_one;
                    Inception.branch2 := one_by_one;
                    Inception.branch3 := one_by_one;
                    Inception.branch4 := one_by_one;
                    Inception.conv1x1 := Conv2d 64 64 (sq 1) (sq 1) (sq 0) (sq 1);
                    Inception.lrelu := None;
                    Inception.scale_ratio := ratio_0_2 |}).
  pose (gen := {| Generator.conv1 := Conv2d 3 64 (sq 3) (sq 1) (sq 1) (sq 1);
                  Generator.residual_residual_dense_blocks := [];
                  Generator.residual_residual_fields_dense_blocks := [];
                  Generator.conv2 := block;
                  Generator.upsampling := [];
                  Generator.conv3 := [Conv2d 64 64 (sq 3) (sq 1) (sq 1) (sq 1);
                                      LeakyReLU ratio_0_2;
                                      Conv2d 64 3 (sq 3) (sq 1) (sq 1) (sq 1)] |}).
  eexists. exists gen.
  assert (Hb : Generator.init 4 = Ok _) by reflexivity.
  assert (Hc : Generator.conv3 gen = Generator.conv3 _) by reflexivity.
  assert (Hy : Generator.forward true gen [1; 3; 8; 8] = Ok [1; 3; 8; 8])
    by reflexivity.
  split; [exact Hb |]. split; [exact Hc |]. split; [exact Hy |].
  exact (Generator_forward_output_channels true 4 _ gen [1; 3; 8; 8] [1; 3; 8; 8]
           Hb Hc Hy).
Defined.

(** ** Residual form of the dense blocks *)

(** Where the constructor stores [scale_ratio], the forward pass is
    [correction * scale_ratio + input]. *)
Lemma ResidualDenseBlock_forward_residual
  (tr : bool) (c g : Z) (s : Q) (x y : Tensor) :
  ResidualDenseBlock.forward tr (ResidualDenseBlock.init c g s) x = Ok y ->
  exists correction,
    ResidualDenseBlock.dense tr (ResidualDenseBlock.init c g s) x = Ok correction
    /\ torch_add (mul_scalar correction s) x = Ok y.
Proof.
  unfold ResidualDenseBlock.forward. intros H.
  apply bind_Ok_inv in H as (correction & Hc & H).
  exists correction. split; [exact Hc | exact H].
Qed.

Lemma ResidualInResidualDenseBlock_forward_residual
  (tr : bool) (c g : Z) (s : Q) (x y : Tensor) :
  ResidualInResidualDenseBlock.forward tr (ResidualInResidualDenseBlock.init c g s) x
  = Ok y ->
  exists correction,
    ResidualInResidualDenseBlock.trunk tr (ResidualInResidualDenseBlock.init c g s) x
    = Ok correction
    /\ torch_add (mul_scalar correction s) x = Ok y.
Proof.
  unfold ResidualInResidualDenseBlock.forward. intros H.
  apply bind_Ok_inv in H as (correction & Hc & H).
  exists correction. split; [exact Hc | exact H].
Qed.

(** What [ReceptiveFieldsDenseBlock.forward] would meet on its last line if
    its five Inception blocks returned: no attribute [scale_ratio], and a
    fifth block built to emit [growth_channels] channels where the skip
    connection adds [in_channels]. *)
Lemma ReceptiveFieldsDenseBlock_last_line (c g : Z) (s : Q) (n h w : Z) :
  getattr "scale_ratio"%string
    (ReceptiveFieldsDenseBlock.scale_ratio (ReceptiveFieldsDenseBlock.init c g s))
  = Err (AttributeError "scale_ratio"%string)
  /\ Inception.conv1x1
       (ReceptiveFieldsDenseBlock.conv5 (ReceptiveFieldsDenseBlock.init c g s))
     = Conv2d (c + 4 * g) g (sq 1) (sq 1) (sq 0) (sq 1)
  /\ (g <> c -> g <> 1 -> c <> 1 ->
      torch_add (mul_scalar [n; g; h; w] s) [n; c; h; w]
      = Err (ShapeError SizeMismatch)).
Proof.
  split; [reflexivity |]. split; [reflexivity |].
  intros Hgc Hg Hc. unfold torch_add, mul_scalar.
  cbn [rev app broadcast_rev].
  rewrite !broadcast_dim_refl. unfold broadcast_dim.
  apply Z.eqb_neq in Hgc, Hg, Hc. rewrite Hgc, Hg, Hc. reflexivity.
Qed.

(** C6.  [ReceptiveFieldsDenseBlock.forward] does not return
    [correction * scale_ratio + input]: its constructor takes [scale_ratio]
    and stores it nowhere, and the forward pass of the block, and of
    [ResidualInResidualFieldsDenseBlock] which is made of three of them,
    raises on every tensor; on a 64-channel image the exception is the
    channel mismatch inside the first Inception block. *)
Theorem ReceptiveFieldsDenseBlock_forward_no_residual
  (tr : bool) (c g : Z) (s : Q) (x : Tensor) :
  ReceptiveFieldsDenseBlock.scale_ratio (ReceptiveFieldsDenseBlock.init c g s) = None
  /\ (exists i,
        ReceptiveFieldsDenseBlock.forward tr (ReceptiveFieldsDenseBlock.init c g s) x
        = Err (ShapeError i))
  /\ (exists i,
        ResidualInResidualFieldsDenseBlock.forward tr
          (ResidualInResidualFieldsDenseBlock.init c g s) x
        = Err (ShapeError i))
  /\ ReceptiveFieldsDenseBlock.forward tr
       (ReceptiveFieldsDenseBlock.init 64 32 ratio_0_2) [1; 64; 8; 8]
     = Err (ShapeError (ChannelMismatch 4 8)).
Proof.
  split; [reflexivity |]. split; [| split].
  - apply ReceptiveFieldsDenseBlock_forward_raises.
  - apply ResidualInResidualFieldsDenseBlock_forward_raises.
  - unfold ReceptiveFieldsDenseBlock.forward.
    cbn [ReceptiveFieldsDenseBlock.conv1 ReceptiveFieldsDenseBlock.init].
    rewrite Inception_forward_image_raises by lia. reflexivity.
Qed.

(** ** The upsampling stack of the generator *)

Lemma concat_repeat_length {A : Type} (items : list A) (k : nat) :
  length (concat (repeat items k)) = (k * length items)%nat.
Proof.
  induction k as [| k IH]; cbn [repeat concat]; [reflexivity |].
  rewrite length_app, IH. reflexivity.
Qed.

Lemma Generator_init_upsampling (f : Z) :
  1 <= f ->
  exists gen,
    Generator.init f = Ok gen
    /\ Generator.upsampling gen
       = concat (repeat Generator.upsampling_stage (Z.to_nat (Z.log2 f))).
Proof.
  intros Hf. unfold Generator.init.
  replace (f <=? 0) with false by (symmetry; apply Z.leb_gt; lia).
  eexists. split; [reflexivity |].
  cbn [Generator.upsampling]. rewrite for_range_app. reflexivity.
Qed.

(** C10.  For every integer upscale factor [2 <= f < 2^20] the constructor
    returns a generator whose upsampling stack consists of exactly [k] copies
    of the six-module stage, where [k] is the floor of the binary logarithm
    of [f]: [2^k <= f < 2^(k+1)].  A factor that is not a power of two is
    accepted and rounded down (one stage for 3, two for 6), and for the
    factor 1 the stack is empty.  The bound [2^20] is the range in which the
    double-precision [int(math.log(f, 2))] of the source is that floor. *)
Theorem Generator_upsampling_stage_count (f : Z) :
  2 <= f -> f < 2 ^ 20 ->
  (exists gen,
     Generator.init f = Ok gen
     /\ 2 ^ Z.log2 f <= f < 2 ^ (Z.log2 f + 1)
     /\ Generator.upsampling gen
        = concat (repeat Generator.upsampling_stage (Z.to_nat (Z.log2 f)))
     /\ Z.of_nat (length (Generator.upsampling gen)) = 6 * Z.log2 f)
  /\ (exists gen3,
        Generator.init 3 = Ok gen3
        /\ Generator.upsampling gen3 = Generator.upsampling_stage)
  /\ (exists gen6,
        Generator.init 6 = Ok gen6
        /\ Generator.upsampling gen6
           = Generator.upsampling_stage ++ Generator.upsampling_stage)
  /\ (exists gen1,
        Generator.init 1 = Ok gen1 /\ Generator.upsampling gen1 = []).
Proof.
  intros Hf Hbound. split; [| split; [| split]].
  - destruct (Generator_init_upsampling f) as (gen & Hg & Hu); [lia |].
    exists gen. split; [exact Hg |]. split; [| split; [exact Hu |]].
    + pose proof (Z.log2_spec f) as Hs. unfold Z.succ in Hs. apply Hs. lia.
    + rewrite Hu, concat_repeat_length. cbn [Generator.upsampling_stage length].
      pose proof (Z.log2_nonneg f). lia.
  - eexists. split; reflexivity.
  - eexists. split; reflexivity.
  - eexists. split; reflexivity.
Qed.

Lemma Generator_upsampling_stage_count_witness :
  2 <= 4 /\ 4 < 2 ^ 20
  /\ exists gen,
       Generator.init 4 = Ok gen
       /\ 2 ^ Z.log2 4 <= 4 < 2 ^ (Z.log2 4 + 1)
       /\ Generator.upsampling gen
          = concat (repeat Generator.upsampling_stage (Z.to_nat (Z.log2 4)))
       /\ Z.of_nat (length (Generator.upsampling gen)) = 6 * Z.log2 4.
Proof.
  assert (H2 : 2 <= 4) by lia.
  assert (Hb : 4 < 2 ^ 20) by reflexivity.
  split; [exact H2 |]. split; [exact Hb |].
  exact (proj1 (Generator_upsampling_stage_count 4 H2 Hb)).
Defined.

(** * Further properties of the blocks *)

(** ** Inception *)

(** X1.  The forward pass of an Inception block, however it was constructed
    (any channel counts, with or without the final activation, either mode),
    returns on no tensor at all: it always raises, and what it raises is a
    rejection of operand sizes. *)
Theorem Inception_forward_always_raises
  (tr : bool) (cin cout : Z) (s : Q) (nl : bool) (x : Tensor) :
  (forall y, Inception.forward tr (Inception.init cin cout s nl) x <> Ok y)
  /\ exists i,
       Inception.forward tr (Inception.init cin cout s nl) x = Err (ShapeError i).
Proof.
  split.
  - intros y. apply Inception_forward_never_Ok.
  - apply Inception_forward_raises.
Qed.

(** X2.  For an Inception block built for at least 4 input channels and at
    least one output channel, on an image with [in_channels] channels and a
    non-empty spatial extent, the shortcut and the first three branches all
    return; [branch2] and [branch3] keep the spatial extent (H, W), while
    [branch1] returns (H + 2, W + 2), each with [in_channels // 4] channels.
    The branches therefore cannot be concatenated along the channel axis. *)
Theorem Inception_branch_sizes
  (tr : bool) (cin cout : Z) (s : Q) (nl : bool) (n h w : Z) :
  4 <= cin -> 1 <= cout -> 1 <= h -> 1 <= w ->
  let block := Inception.init cin cout s nl in
  layer_forward tr (Inception.shortcut block) [n; cin; h; w] = Ok [n; cout; h; w]
  /\ Sequential_forward tr (Inception.branch1 block) [n; cin; h; w]
     = Ok [n; cin / 4; h + 2; w + 2]
  /\ Sequential_forward tr (Inception.branch2 block) [n; cin; h; w]
     = Ok [n; cin / 4; h; w]
  /\ Sequential_forward tr (Inception.branch3 block) [n; cin; h; w]
     = Ok [n; cin / 4; h; w]
  /\ torch_cat1 [[n; cin / 4; h + 2; w + 2]; [n; cin / 4; h; w]]
     = Err (ShapeError SizeMismatch).
Proof.
  intros Hcin Hcout Hh Hw block. subst block.
  split; [| split; [| split; [| split]]].
  - cbn [Inception.shortcut Inception.init].
    rewrite conv_stride1_accepts by (cbn [sq fst snd]; first [reflexivity | lia]).
    cbn [sq fst snd]. f_equal. sizes_eq.
  - apply Inception_branch1_accepts; assumption.
  - apply Inception_branch2_accepts; assumption.
  - apply Inception_branch3_accepts; assumption.
  - cbn [torch_cat1 cat_onto cat2 sizes_eqb].
    replace (h + 2 =? h) with false by (symmetry; apply Z.eqb_neq; lia).
    rewrite Z.eqb_refl. reflexivity.
Qed.

Lemma Inception_branch_sizes_witness :
  4 <= 64 /\ 1 <= 32 /\ 1 <= 8
  /\ layer_forward true (Inception.shortcut (Inception.init 64 32 ratio_0_2 true))
       [1; 64; 8; 8] = Ok [1; 32; 8; 8]
  /\ Sequential_forward true (Inception.branch1 (Inception.init 64 32 ratio_0_2 true))
       [1; 64; 8; 8] = Ok [1; 64 / 4; 8 + 2; 8 + 2]
  /\ Sequential_forward true (Inception.branch2 (Inception.init 64 32 ratio_0_2 true))
       [1; 64; 8; 8] = Ok [1; 64 / 4; 8; 8]
  /\ Sequential_forward true (Inception.branch3 (Inception.init 64 32 ratio_0_2 true))
       [1; 64; 8; 8] = Ok [1; 64 / 4; 8; 8]
  /\ torch_cat1 [[1; 64 / 4; 8 + 2; 8 + 2]; [1; 64 / 4; 8; 8]]
     = Err (ShapeError SizeMismatch).
Proof.
  assert (H64 : 4 <= 64) by lia.
  assert (H32 : 1 <= 32) by lia.
  assert (H8 : 1 <= 8) by lia.
  split; [exact H64 |]. split; [exact H32 |]. split; [exact H8 |].
  exact (Inception_branch_sizes true 64 32 ratio_0_2 true 1 8 8 H64 H32 H8 H8).
Defined.

(** ** Discriminator: which images it accepts *)

Lemma conv_out_Some_inv (size k s p d o : Z) :
  conv_out size k s p d = Some o ->
  d * (k - 1) + 1 <= size + 2 * p
  /\ o = (size + 2 * p - d * (k - 1) - 1) / s + 1.
Proof.
  unfold conv_out.
  destruct (d * (k - 1) + 1 <=? size + 2 * p) eqn:E; [| discriminate].
  apply Z.leb_le in E. intros Ho. split; [exact E | congruence].
Qed.

Lemma conv3_step (tr : bool) (cin cout : Z) (rest : list layer)
  (n c h w : Z) (y : Tensor) :
  Sequential_forward tr (Conv2d cin cout (sq 3) (sq 1) (sq 1) (sq 1) :: rest)
    [n; c; h; w] = Ok y ->
  c = cin /\ 1 <= h /\ 1 <= w /\ Sequential_forward tr rest [n; cout; h; w] = Ok y.
Proof.
  cbn [Sequential_forward]. intros H.
  apply bind_Ok_inv in H as (z & Hz & H).
  apply conv_Ok_inv in Hz as (n0 & h0 & w0 & h' & w' & Hx & -> & Eh & Ew).
  assert (En : n0 = n) by congruence.
  assert (Ec : c = cin) by congruence.
  assert (Eh0 : h0 = h) by congruence.
  assert (Ew0 : w0 = w) by congruence.
  subst n0 h0 w0. clear Hx.
  cbn [sq fst snd] in Eh, Ew.
  apply conv_out_Some_inv in Eh as (Hh & Eh), Ew as (Hw & Ew).
  rewrite Z.div_1_r in Eh, Ew.
  assert (Eh' : h' = h) by lia. assert (Ew' : w' = w) by lia.
  clear Eh Ew. subst h' w'.
  repeat split; [exact Ec | lia | lia | exact H].
Qed.

Lemma half_formula (z : Z) : (z + 2 * 1 - 1 * (4 - 1) - 1) / 2 + 1 = z / 2.
Proof.
  replace (z + 2 * 1 - 1 * (4 - 1) - 1) with (z + (-1) * 2) by lia.
  rewrite Z.div_add by lia. lia.
Qed.

Lemma conv4_step (tr : bool) (cin cout : Z) (rest : list layer)
  (n c h w : Z) (y : Tensor) :
  Sequential_forward tr (Conv2d cin cout (sq 4) (sq 2) (sq 1) (sq 1) :: rest)
    [n; c; h; w] = Ok y ->
  c = cin /\ 2 <= h /\ 2 <= w
  /\ Sequential_forward tr rest [n; cout; h / 2; w / 2] = Ok y.
Proof.
  cbn [Sequential_forward]. intros H.
  apply bind_Ok_inv in H as (z & Hz & H).
  apply conv_Ok_inv in Hz as (n0 & h0 & w0 & h' & w' & Hx & -> & Eh & Ew).
  assert (En : n0 = n) by congruence.
  assert (Ec : c = cin) by congruence.
  assert (Eh0 : h0 = h) by congruence.
  assert (Ew0 : w0 = w) by congruence.
  subst n0 h0 w0. clear Hx.
  cbn [sq fst snd] in Eh, Ew.
  apply conv_out_Some_inv in Eh as (Hh & Eh), Ew as (Hw & Ew).
  rewrite half_formula in Eh, Ew. subst h' w'.
  repeat split; [exact Ec | lia | lia | exact H].
Qed.

Lemma BatchNorm2d_step (tr : bool) (nf : Z) (rest : list layer) (x y : Tensor) :
  Sequential_forward tr (BatchNorm2d nf :: rest) x = Ok y ->
  Sequential_forward tr rest x = Ok y.
Proof.
  cbn [Sequential_forward]. intros H.
  apply bind_Ok_inv in H as (z & Hz & H).
  apply bn_Ok_inv in Hz. subst z. exact H.
Qed.

Lemma LeakyReLU_step (tr : bool) (r : Q) (rest : list layer) (x y : Tensor) :
  Sequential_forward tr (LeakyReLU r :: rest) x = Ok y ->
  Sequential_forward tr rest x = Ok y.
Proof. intros H. exact H. Qed.

Lemma half_lower_bound (z k : Z) : k <= z / 2 -> 2 * k <= z.
Proof. intros H. pose proof (Z.mul_div_le z 2). lia. Qed.

Ltac features_inv H :=
  lazymatch type of H with
  | Sequential_forward _ (Conv2d _ _ (sq 3) _ _ _ :: _) _ = _ =>
      apply conv3_step in H as (? & ? & ? & H)
  | Sequential_forward _ (Conv2d _ _ (sq 4) _ _ _ :: _) _ = _ =>
      apply conv4_step in H as (? & ? & ? & H)
  | Sequential_forward _ (BatchNorm2d _ :: _) _ = _ =>
      apply BatchNorm2d_step in H
  | Sequential_forward ?tr (LeakyReLU ?r :: ?rest) ?x = Ok ?y =>
      apply (LeakyReLU_step tr r rest x y) in H
  end.

(** The feature stack returns only on 3-channel images of at least 32 by
    32, in either mode. *)
Lemma Discriminator_features_needs (tr : bool) (n c h w : Z) (y : Tensor) :
  Sequential_forward tr (Discriminator.features Discriminator.init) [n; c; h; w] = Ok y ->
  c = 3 /\ 32 <= h /\ 32 <= w.
Proof.
  cbn [Discriminator.features Discriminator.init]. intros H.
  do 29 features_inv H.
  repeat match goal with
         | Hk : _ <= _ / 2 |- _ => apply half_lower_bound in Hk
         end.
  repeat split; [assumption | lia | lia].
Qed.

(** X3.  The discriminator returns on an image (N, C, H, W) only if C = 3,
    H >= 32 and W >= 32, whatever the mode, and what it returns then has size
    (N, 1); in evaluation mode that condition is also sufficient.  Smaller
    images and other channel counts raise. *)
Theorem Discriminator_accepts_iff (n c h w : Z) :
  (forall tr y,
     Discriminator.forward tr Discriminator.init (Some [n; c; h; w]) = Ok y ->
     c = 3 /\ 32 <= h /\ 32 <= w /\ y = [n; 1])
  /\ (Discriminator.forward false Discriminator.init (Some [n; c; h; w]) = Ok [n; 1]
      <-> c = 3 /\ 32 <= h /\ 32 <= w).
Proof.
  assert (Hneed : forall tr y,
            Discriminator.forward tr Discriminator.init (Some [n; c; h; w]) = Ok y ->
            c = 3 /\ 32 <= h /\ 32 <= w /\ y = [n; 1]).
  { intros tr y Hy.
    assert (Hf : exists z,
               Sequential_forward tr (Discriminator.features Discriminator.init)
                 [n; c; h; w] = Ok z).
    { unfold Discriminator.forward, Sequential_call in Hy.
      apply bind_Ok_inv in Hy as (z & Hz & _). exists z. exact Hz. }
    destruct Hf as (z & Hz).
    destruct (Discriminator_features_needs tr n c h w z Hz) as (Hc & Hh & Hw).
    rewrite (Discriminator_forward_of_features tr n c h w z Hz) in Hy.
    repeat split; [exact Hc | exact Hh | exact Hw | congruence]. }
  split; [exact Hneed |]. split.
  - intros Hy. destruct (Hneed false _ Hy) as (Hc & Hh & Hw & _). auto.
  - intros (-> & Hh & Hw).
    apply Discriminator_forward_accepts; [assumption | assumption | left; reflexivity].
Qed.

(** ** Discriminator: training mode *)

Lemma product_not_one (n a b : Z) : 0 <= n -> 2 <= a -> 1 <= b -> n * a * b <> 1.
Proof.
  intros Hn Ha Hb E.
  destruct (Z.eq_dec n 0) as [-> | Hn0]; [lia |].
  assert (H1 : 2 <= n * a) by nia.
  assert (H2 : 2 <= n * a * b) by nia.
  lia.
Qed.

Lemma BatchNorm2d_rejects_single (nf n c h w : Z) :
  n * h * w = 1 ->
  layer_forward true (BatchNorm2d nf) [n; c; h; w] = Err (ShapeError TooFewValues).
Proof.
  intros E. cbn [layer_forward]. apply Z.eqb_eq in E. rewrite E. reflexivity.
Qed.

(** X4.  In training mode, on a 3-channel image of at least 32 by 32 in a
    batch of N >= 0, the discriminator raises exactly when the last feature
    map holds a single value per channel, that is when
    N * (H // 32) * (W // 32) = 1 (one image smaller than 64 by 64);
    otherwise it returns one score per batch element. *)
Theorem Discriminator_training_single_value (n h w : Z) :
  0 <= n -> 32 <= h -> 32 <= w ->
  Discriminator.forward true Discriminator.init (Some [n; 3; h; w])
  = if n * (h / 32) * (w / 32) =? 1
    then Err (ShapeError TooFewValues)
    else Ok [n; 1].
Proof.
  intros Hn Hh Hw.
  destruct (halves h Hh) as (h1 & h2 & h3 & h4 & h5 & Eh).
  destruct (halves w Hw) as (w1 & w2 & w3 & w4 & w5 & Ew).
  assert (Hbn : forall a b, 2 <= a -> 2 <= b -> true = false \/ n * a * b <> 1).
  { intros a b Ha Hb. right. apply product_not_one; lia. }
  unfold Discriminator.forward, Sequential_call.
  rewrite <- Eh, <- Ew.
  destruct (n * (h / 2 / 2 / 2 / 2 / 2) * (w / 2 / 2 / 2 / 2 / 2) =? 1) eqn:E.
  - apply Z.eqb_eq in E.
    cbn [Discriminator.features Discriminator.init].
    repeat features_step ltac:(first [reflexivity | lia | apply Hbn; lia]).
    cbn [Sequential_forward].
    rewrite BatchNorm2d_rejects_single by exact E. reflexivity.
  - apply Z.eqb_neq in E.
    cbn [Discriminator.features Discriminator.init].
    repeat features_step
      ltac:(first [reflexivity | lia | apply Hbn; lia | right; exact E]).
    cbn [Sequential_forward bind].
    apply Discriminator_head_scores; lia.
Qed.

Lemma Discriminator_training_single_value_witness :
  0 <= 1 /\ 32 <= 40 /\ 32 <= 63
  /\ Discriminator.forward true Discriminator.init (Some [1; 3; 40; 63])
     = Err (ShapeError TooFewValues)
  /\ Discriminator.forward true Discriminator.init (Some [1; 3; 40; 64]) = Ok [1; 1].
Proof.
  assert (H0 : 0 <= 1) by lia.
  assert (H40 : 32 <= 40) by lia.
  assert (H63 : 32 <= 63) by lia.
  assert (H64 : 32 <= 64) by lia.
  split; [exact H0 |]. split; [exact H40 |]. split; [exact H63 |]. split.
  - exact (Discriminator_training_single_value 1 40 63 H0 H40 H63).
  - exact (Discriminator_training_single_value 1 40 64 H0 H40 H64).
Defined.

Lemma layer_forward_training_Ok (l : layer) (x y : Tensor) :
  layer_forward true l x = Ok y -> layer_forward false l x = Ok y.
Proof.
  destruct l; try (intros H; exact H).
  cbn [layer_forward]. destruct x as [| n [| c [| h [| w [| ? ?]]]]]; try discriminate.
  cbn [andb]. destruct (n * h * w =? 1); [discriminate |]. intros H. exact H.
Qed.

Lemma Sequential_forward_training_Ok (ls : list layer) (x y : Tensor) :
  Sequential_forward true ls x = Ok y -> Sequential_forward false ls x = Ok y.
Proof.
  revert x. induction ls as [| l ls IH]; intros x; cbn [Sequential_forward].
  - intros H. exact H.
  - intros H. apply bind_Ok_inv in H as (z & Hz & H).
    rewrite (layer_forward_training_Ok l x z Hz). cbn [bind]. apply IH. exact H.
Qed.

(** X5.  Whatever a discriminator object returns in training mode it also
    returns in evaluation mode, for every argument (a tensor or [None]): the
    mode never changes the size of the result, training only rejects more. *)
Theorem Discriminator_training_accepts_less
  (d : Discriminator.t) (input : option Tensor) (y : Tensor) :
  Discriminator.forward true d input = Ok y ->
  Discriminator.forward false d input = Ok y.
Proof.
  unfold Discriminator.forward. intros H.
  apply bind_Ok_inv in H as (a & Ha & H).
  apply bind_Ok_inv in H as (b & Hb & H).
  apply bind_Ok_inv in H as (c & Hc & H).
  assert (Ha' : Sequential_call false (Discriminator.features d) input = Ok a).
  { destruct input as [x |]; [| discriminate Ha].
    apply Sequential_forward_training_Ok. exact Ha. }
  rewrite Ha'. cbn [bind].
  rewrite (layer_forward_training_Ok _ _ _ Hb). cbn [bind].
  rewrite Hc. cbn [bind].
  apply Sequential_forward_training_Ok. exact H.
Qed.

Lemma Discriminator_training_accepts_less_witness :
  Discriminator.forward true Discriminator.init (Some [2; 3; 32; 32]) = Ok [2; 1]
  /\ Discriminator.forward false Discriminator.init (Some [2; 3; 32; 32]) = Ok [2; 1].
Proof.
  assert (H : Discriminator.forward true Discriminator.init (Some [2; 3; 32; 32])
              = Ok [2; 1]) by reflexivity.
  split; [exact H |].
  exact (Discriminator_training_accepts_less Discriminator.init _ _ H).
Defined.

(** ** Training and evaluation mode outside the discriminator *)

Lemma bind_ext {A B : Type} (r1 r2 : result A) (k1 k2 : A -> result B) :
  r1 = r2 -> (forall a, k1 a = k2 a) -> bind r1 k1 = bind r2 k2.
Proof. intros -> Hk. destruct r2 as [a | e]; [apply Hk | reflexivity]. Qed.

Lemma layer_forward_mode (tr1 tr2 : bool) (l : layer) (x : Tensor) :
  batch_norm_free l -> layer_forward tr1 l x = layer_forward tr2 l x.
Proof. destruct l; intros H; [reflexivity .. | contradiction H | | | |]; reflexivity. Qed.

Lemma Sequential_forward_mode (tr1 tr2 : bool) (ls : list layer) (x : Tensor) :
  Forall batch_norm_free ls ->
  Sequential_forward tr1 ls x = Sequential_forward tr2 ls x.
Proof.
  intros H. revert x. induction H as [| l ls Hl _ IH]; intros x.
  - reflexivity.
  - cbn [Sequential_forward]. apply bind_ext; [apply layer_forward_mode; exact Hl | exact IH].
Qed.

Lemma chain_forward_ext {M : Type} (f g : M -> Tensor -> result Tensor)
  (ms : list M) (x : Tensor) :
  (forall m y, In m ms -> f m y = g m y) ->
  chain_forward f ms x = chain_forward g ms x.
Proof.
  revert x. induction ms as [| m ms IH]; intros x H; cbn [chain_forward].
  - reflexivity.
  - apply bind_ext; [apply H; left; reflexivity |].
    intros a. apply IH. intros m' y Hm'. apply H. right. exact Hm'.
Qed.

Lemma for_range_In {A : Type} (n : nat) (items : list A) (m : A) :
  In m (for_range n items []) -> In m items.
Proof.
  rewrite for_range_app. cbn [app]. induction n as [| n IH]; cbn [repeat concat].
  - intros [].
  - intros H. apply in_app_or in H as [H | H]; [exact H | exact (IH H)].
Qed.

Ltac mode_leaf :=
  first [ reflexivity
        | apply layer_forward_mode; exact I
        | apply Sequential_forward_mode; repeat constructor ].

Ltac mode_steps leaf :=
  repeat lazymatch goal with
         | |- bind _ _ = bind _ _ => apply bind_ext; [leaf | intros ?]
         end.

Lemma Inception_forward_mode (tr1 tr2 : bool) (cin cout : Z) (s : Q) (nl : bool)
  (x : Tensor) :
  Inception.forward tr1 (Inception.init cin cout s nl) x
  = Inception.forward tr2 (Inception.init cin cout s nl) x.
Proof.
  unfold Inception.forward.
  cbn [Inception.init Inception.shortcut Inception.branch1 Inception.branch2
       Inception.branch3 Inception.branch4 Inception.conv1x1 Inception.lrelu
       Inception.scale_ratio].
  mode_steps mode_leaf. destruct nl; reflexivity.
Qed.

Lemma ResidualDenseBlock_forward_mode (tr1 tr2 : bool) (c g : Z) (s : Q) (x : Tensor) :
  ResidualDenseBlock.forward tr1 (ResidualDenseBlock.init c g s) x
  = ResidualDenseBlock.forward tr2 (ResidualDenseBlock.init c g s) x.
Proof.
  unfold ResidualDenseBlock.forward, ResidualDenseBlock.dense.
  cbn [ResidualDenseBlock.init ResidualDenseBlock.conv1 ResidualDenseBlock.conv2
       ResidualDenseBlock.conv3 ResidualDenseBlock.conv4 ResidualDenseBlock.conv5
       ResidualDenseBlock.scale_ratio].
  apply bind_ext; [| reflexivity].
  mode_steps mode_leaf. mode_leaf.
Qed.

Lemma ResidualInResidualDenseBlock_forward_mode
  (tr1 tr2 : bool) (c g : Z) (s : Q) (x : Tensor) :
  ResidualInResidualDenseBlock.forward tr1 (ResidualInResidualDenseBlock.init c g s) x
  = ResidualInResidualDenseBlock.forward tr2 (ResidualInResidualDenseBlock.init c g s) x.
Proof.
  unfold ResidualInResidualDenseBlock.forward, ResidualInResidualDenseBlock.trunk.
  cbn [ResidualInResidualDenseBlock.init ResidualInResidualDenseBlock.RBD1
       ResidualInResidualDenseBlock.RBD2 ResidualInResidualDenseBlock.RBD3].
  apply bind_ext; [| reflexivity].
  apply bind_ext; [apply ResidualDenseBlock_forward_mode | intros a].
  apply bind_ext; [apply ResidualDenseBlock_forward_mode | intros b].
  apply ResidualDenseBlock_forward_mode.
Qed.

Lemma ReceptiveFieldsDenseBlock_forward_mode
  (tr1 tr2 : bool) (c g : Z) (s : Q) (x : Tensor) :
  ReceptiveFieldsDenseBlock.forward tr1 (ReceptiveFieldsDenseBlock.init c g s) x
  = ReceptiveFieldsDenseBlock.forward tr2 (ReceptiveFieldsDenseBlock.init c g s) x.
Proof.
  unfold ReceptiveFieldsDenseBlock.forward.
  cbn [ReceptiveFieldsDenseBlock.init ReceptiveFieldsDenseBlock.conv1
       ReceptiveFieldsDenseBlock.conv2 ReceptiveFieldsDenseBlock.conv3
       ReceptiveFieldsDenseBlock.conv4 ReceptiveFieldsDenseBlock.conv5].
  mode_steps ltac:(first [reflexivity | apply Inception_forward_mode]).
  reflexivity.
Qed.

Lemma ResidualInResidualFieldsDenseBlock_forward_mode
  (tr1 tr2 : bool) (c g : Z) (s : Q) (x : Tensor) :
  ResidualInResidualFieldsDenseBlock.forward tr1
    (ResidualInResidualFieldsDenseBlock.init c g s) x
  = ResidualInResidualFieldsDenseBlock.forward tr2
      (ResidualInResidualFieldsDenseBlock.init c g s) x.
Proof.
  unfold ResidualInResidualFieldsDenseBlock.forward.
  cbn [ResidualInResidualFieldsDenseBlock.init ResidualInResidualFieldsDenseBlock.RFDB1
       ResidualInResidualFieldsDenseBlock.RFDB2 ResidualInResidualFieldsDenseBlock.RFDB3].
  mode_steps ltac:(apply ReceptiveFieldsDenseBlock_forward_mode).
  reflexivity.
Qed.

Lemma Generator_forward_mode (tr1 tr2 : bool) (f : Z) (gen : Generator.t) (x : Tensor) :
  Generator.init f = Ok gen ->
  Generator.forward tr1 gen x = Generator.forward tr2 gen x.
Proof.
  intros Hg.
  destruct (Generator_init_Ok_inv f gen Hg) as (_ & Hc1 & Hd & Hf & Hc2 & Hu).
  assert (Hc3 : Forall batch_norm_free (Generator.conv3 gen)).
  { revert Hg. unfold Generator.init. destruct (f <=? 0); [discriminate |].
    intros Hg. injection Hg as <-. cbn [Generator.conv3]. repeat constructor. }
  unfold Generator.forward. rewrite Hc1, Hd, Hf, Hc2, Hu.
  apply bind_ext; [apply layer_forward_mode; exact I | intros out1].
  apply bind_ext.
  { apply chain_forward_ext. intros m y Hm.
    apply for_range_single_In in Hm. subst m.
    apply ResidualInResidualDenseBlock_forward_mode. }
  intros out2. apply bind_ext.
  { apply chain_forward_ext. intros m y Hm.
    apply for_range_single_In in Hm. subst m.
    apply ResidualInResidualFieldsDenseBlock_forward_mode. }
  intros out2'. apply bind_ext; [reflexivity | intros out].
  apply bind_ext; [apply Inception_forward_mode | intros out'].
  apply bind_ext.
  { apply chain_forward_ext. intros m y Hm. apply for_range_In in Hm.
    cbn [Generator.upsampling_stage In] in Hm.
    destruct Hm as [<- | [<- | [<- | [<- | [<- | [<- | []]]]]]];
      cbn [Generator.submodule_forward];
      first [apply Inception_forward_mode | apply layer_forward_mode; exact I]. }
  intros z. apply Sequential_forward_mode. exact Hc3.
Qed.

(** X6.  Outside the discriminator no block holds a batch normalisation, so
    for every object the constructors of [Inception], the four dense block
    classes and [Generator] return, the forward pass gives the same result
    (the same size or the same exception) in training and in evaluation mode.
    The discriminator does depend on the mode: one 32 by 32 image is scored
    in evaluation mode and refused in training mode. *)
Theorem forward_mode_independent (tr1 tr2 : bool) (m : nn_module) (x : Tensor) :
  constructed m ->
  (forall d, m <> OfDiscriminator d) ->
  module_forward tr1 m x = module_forward tr2 m x
  /\ module_forward true (OfDiscriminator Discriminator.init) [1; 3; 32; 32]
     <> module_forward false (OfDiscriminator Discriminator.init) [1; 3; 32; 32].
Proof.
  intros Hm Hd. split; [| discriminate].
  destruct Hm as [| f g Hg | cin cout s nl | c g s | c g s | c g s | c g s];
    cbn [module_forward].
  - exfalso. exact (Hd _ eq_refl).
  - exact (Generator_forward_mode tr1 tr2 f g x Hg).
  - apply Inception_forward_mode.
  - apply ReceptiveFieldsDenseBlock_forward_mode.
  - apply ResidualInResidualFieldsDenseBlock_forward_mode.
  - apply ResidualDenseBlock_forward_mode.
  - apply ResidualInResidualDenseBlock_forward_mode.
Qed.

Lemma forward_mode_independent_witness :
  constructed (OfResidualInResidualDenseBlock
                 (ResidualInResidualDenseBlock.init 64 32 ratio_0_2))
  /\ module_forward true
       (OfResidualInResidualDenseBlock (ResidualInResidualDenseBlock.init 64 32 ratio_0_2))
       [1; 64; 8; 8]
     = module_forward false
         (OfResidualInResidualDenseBlock (ResidualInResidualDenseBlock.init 64 32 ratio_0_2))
         [1; 64; 8; 8].
Proof.
  assert (Hc : constructed (OfResidualInResidualDenseBlock
                              (ResidualInResidualDenseBlock.init 64 32 ratio_0_2)))
    by constructor.
  split; [exact Hc |].
  refine (proj1 (forward_mode_independent true false _ [1; 64; 8; 8] Hc _)).
  intros d H. discriminate H.
Defined.

(** ** Dense blocks: exactly which tensors they accept *)

Lemma ResidualDenseBlock_forward_Ok_inv
  (tr : bool) (c g : Z) (s : Q) (x y : Tensor) :
  1 <= c -> 1 <= g ->
  ResidualDenseBlock.forward tr (ResidualDenseBlock.init c g s) x = Ok y ->
  exists n h w, x = [n; c; h; w] /\ 1 <= h /\ 1 <= w /\ y = x.
Proof.
  intros Hc Hg H.
  assert (Hx : exists n h w, x = [n; c; h; w] /\ 1 <= h /\ 1 <= w).
  { unfold ResidualDenseBlock.forward, ResidualDenseBlock.dense in H.
    apply bind_Ok_inv in H as (corr & H & _).
    apply bind_Ok_inv in H as (c1 & H & _).
    cbn [ResidualDenseBlock.conv1 ResidualDenseBlock.init] in H.
    rewrite Sequential_forward_cons in H.
    apply bind_Ok_inv in H as (z & Hz & _).
    apply conv_Ok_inv in Hz as (n & h & w & h' & w' & -> & _ & Eh & Ew).
    cbn [sq fst snd] in Eh, Ew.
    apply conv_out_Some_inv in Eh as (Hh & _), Ew as (Hw & _).
    exists n, h, w. replace (c + 0 * g) with c by lia.
    repeat split; lia. }
  destruct Hx as (n & h & w & -> & Hh & Hw).
  rewrite ResidualDenseBlock_forward_size in H by assumption.
  exists n, h, w. repeat split; [assumption | assumption | congruence].
Qed.

Lemma ResidualInResidualDenseBlock_forward_Ok_inv
  (tr : bool) (c g : Z) (s : Q) (x y : Tensor) :
  1 <= c -> 1 <= g ->
  ResidualInResidualDenseBlock.forward tr (ResidualInResidualDenseBlock.init c g s) x
  = Ok y ->
  exists n h w, x = [n; c; h; w] /\ 1 <= h /\ 1 <= w /\ y = x.
Proof.
  intros Hc Hg H.
  assert (Hx : exists n h w, x = [n; c; h; w] /\ 1 <= h /\ 1 <= w).
  { unfold ResidualInResidualDenseBlock.forward, ResidualInResidualDenseBlock.trunk in H.
    apply bind_Ok_inv in H as (out & H & _).
    apply bind_Ok_inv in H as (o1 & H & _).
    cbn [ResidualInResidualDenseBlock.RBD1 ResidualInResidualDenseBlock.init] in H.
    apply ResidualDenseBlock_forward_Ok_inv in H as (n & h & w & -> & Hh & Hw & _);
      [| assumption | assumption].
    exists n, h, w. auto. }
  destruct Hx as (n & h & w & -> & Hh & Hw).
  rewrite ResidualInResidualDenseBlock_forward_size in H by assumption.
  exists n, h, w. repeat split; [assumption | assumption | congruence].
Qed.

(** X7.  A [ResidualDenseBlock] and a [ResidualInResidualDenseBlock] built for
    [in_channels >= 1] channels and [growth_channels >= 1] return exactly on
    the tensors (N, in_channels, H, W) with H >= 1 and W >= 1, and then
    return a tensor of the size of their input; every other tensor (another
    channel count, another rank, an empty spatial extent) raises.  The same
    holds for any non-empty sequence of equal residual-in-residual blocks. *)
Theorem residual_dense_blocks_accept_iff
  (tr : bool) (c g : Z) (s : Q) (x y : Tensor) :
  1 <= c -> 1 <= g ->
  let image := exists n h w, x = [n; c; h; w] /\ 1 <= h /\ 1 <= w /\ y = x in
  (ResidualDenseBlock.forward tr (ResidualDenseBlock.init c g s) x = Ok y <-> image)
  /\ (ResidualInResidualDenseBlock.forward tr
        (ResidualInResidualDenseBlock.init c g s) x = Ok y <-> image)
  /\ forall k : nat,
       chain_forward (ResidualInResidualDenseBlock.forward tr)
         (repeat (ResidualInResidualDenseBlock.init c g s) (S k)) x = Ok y
       <-> image.
Proof.
  intros Hc Hg image. subst image. split; [| split].
  - split.
    + apply ResidualDenseBlock_forward_Ok_inv; assumption.
    + intros (n & h & w & -> & Hh & Hw & ->).
      apply ResidualDenseBlock_forward_size; assumption.
  - split.
    + apply ResidualInResidualDenseBlock_forward_Ok_inv; assumption.
    + intros (n & h & w & -> & Hh & Hw & ->).
      apply ResidualInResidualDenseBlock_forward_size; assumption.
  - intros k.
    assert (Hfix : forall n h w, 1 <= h -> 1 <= w ->
              chain_forward (ResidualInResidualDenseBlock.forward tr)
                (repeat (ResidualInResidualDenseBlock.init c g s) (S k)) [n; c; h; w]
              = Ok [n; c; h; w]).
    { intros n h w Hh Hw. apply chain_forward_fixed. intros m Hm.
      apply repeat_spec in Hm. subst m.
      apply ResidualInResidualDenseBlock_forward_size; assumption. }
    split.
    + intros H.
      assert (Hx : exists n h w, x = [n; c; h; w] /\ 1 <= h /\ 1 <= w).
      { cbn [repeat chain_forward] in H.
        apply bind_Ok_inv in H as (z & Hz & _).
        apply ResidualInResidualDenseBlock_forward_Ok_inv in Hz
          as (n & h & w & -> & Hh & Hw & _); [| assumption | assumption].
        exists n, h, w. auto. }
      destruct Hx as (n & h & w & -> & Hh & Hw).
      rewrite Hfix in H by assumption.
      exists n, h, w. repeat split; [assumption | assumption | congruence].
    + intros (n & h & w & -> & Hh & Hw & ->). apply Hfix; assumption.
Qed.

Lemma residual_dense_blocks_accept_iff_witness :
  1 <= 64 /\ 1 <= 32
  /\ ResidualDenseBlock.forward true (ResidualDenseBlock.init 64 32 ratio_0_2)
       [1; 64; 8; 8] = Ok [1; 64; 8; 8]
  /\ (forall y,
        ResidualDenseBlock.forward true (ResidualDenseBlock.init 64 32 ratio_0_2)
          [1; 32; 8; 8] <> Ok y)
  /\ chain_forward (ResidualInResidualDenseBlock.forward true)
       (repeat (ResidualInResidualDenseBlock.init 64 32 ratio_0_2) 3) [1; 64; 8; 8]
     = Ok [1; 64; 8; 8].
Proof.
  assert (H64 : 1 <= 64) by lia.
  assert (H32 : 1 <= 32) by lia.
  split; [exact H64 |]. split; [exact H32 |]. split; [| split].
  - apply (proj1 (residual_dense_blocks_accept_iff true 64 32 ratio_0_2
                    [1; 64; 8; 8] [1; 64; 8; 8] H64 H32)).
    exists 1, 8, 8. repeat split; lia.
  - intros y Hy.
    apply (proj1 (residual_dense_blocks_accept_iff true 64 32 ratio_0_2
                    [1; 32; 8; 8] y H64 H32)) in Hy.
    destruct Hy as (n & h & w & E & _). discriminate E.
  - apply (proj2 (proj2 (residual_dense_blocks_accept_iff true 64 32 ratio_0_2
                           [1; 64; 8; 8] [1; 64; 8; 8] H64 H32)) 2%nat).
    exists 1, 8, 8. repeat split; lia.
Defined.

(** ** Generator: what it raises on tensors that are not images *)

(** X8.  A constructed generator checks its argument in [conv1] before
    anything else: a 4-axis tensor with a channel count other than 3 raises a
    channel mismatch (3 expected), and a 3-channel tensor with an empty
    height or width is refused by the 3x3 kernel. *)
Theorem Generator_forward_rejects
  (tr : bool) (f : Z) (gen : Generator.t) (n c h w : Z) :
  Generator.init f = Ok gen ->
  (c <> 3 ->
   Generator.forward tr gen [n; c; h; w] = Err (ShapeError (ChannelMismatch 3 c)))
  /\ (c = 3 -> h < 1 \/ w < 1 ->
      Generator.forward tr gen [n; c; h; w] = Err (ShapeError KernelTooLarge)).
Proof.
  intros Hg.
  destruct (Generator_init_Ok_inv f gen Hg) as (_ & Hc1 & _).
  unfold Generator.forward. rewrite Hc1. split.
  - intros Hc. rewrite conv_rejects_channels by exact Hc. reflexivity.
  - intros -> Hhw. cbn [layer_forward sq fst snd]. rewrite Z.eqb_refl.
    unfold conv_out.
    destruct Hhw as [Hh | Hw].
    + replace (1 * (3 - 1) + 1 <=? h + 2 * 1) with false
        by (symmetry; apply Z.leb_gt; lia).
      reflexivity.
    + replace (1 * (3 - 1) + 1 <=? w + 2 * 1) with false
        by (symmetry; apply Z.leb_gt; lia).
      destruct (1 * (3 - 1) + 1 <=? h + 2 * 1); reflexivity.
Qed.

Lemma Generator_forward_rejects_witness :
  exists gen,
    Generator.init 4 = Ok gen
    /\ Generator.forward false gen [1; 1; 8; 8] = Err (ShapeError (ChannelMismatch 3 1))
    /\ Generator.forward false gen [1; 3; 0; 8] = Err (ShapeError KernelTooLarge).
Proof.
  eexists. split; [reflexivity |]. split.
  - apply (proj1 (Generator_forward_rejects false 4 _ 1 1 8 8 eq_refl)). lia.
  - apply (proj2 (Generator_forward_rejects false 4 _ 1 3 0 8 eq_refl));
      [reflexivity | left; lia].
Defined.

(** ** Generator: the resampling layers of the upsampling stack *)

Lemma Sequential_forward_app (tr : bool) (l1 l2 : list layer) (x : Tensor) :
  Sequential_forward tr (l1 ++ l2) x
  = (y <- Sequential_forward tr l1 x ;; Sequential_forward tr l2 y).
Proof.
  revert x. induction l1 as [| l l1 IH]; intros x.
  - reflexivity.
  - cbn [app]. rewrite !Sequential_forward_cons.
    destruct (layer_forward tr l x) as [z | e]; [| reflexivity].
    rewrite !bind_Ok. apply IH.
Qed.

Lemma resampling_layers_app (a b : list Generator.submodule) :
  resampling_layers (a ++ b) = resampling_layers a ++ resampling_layers b.
Proof. unfold resampling_layers. apply flat_map_app. Qed.

Lemma resampling_stages_scale (tr : bool) (m : nat) (n h w : Z) :
  1 <= h -> 1 <= w ->
  Sequential_forward tr
    (resampling_layers (concat (repeat Generator.upsampling_stage m))) [n; 64; h; w]
  = Ok [n; 64; h * 4 ^ Z.of_nat m; w * 4 ^ Z.of_nat m].
Proof.
  revert h w. induction m as [| m IH]; intros h w Hh Hw.
  - cbn [repeat concat]. change (4 ^ Z.of_nat 0) with 1.
    rewrite !Z.mul_1_r. reflexivity.
  - cbn [repeat concat]. rewrite resampling_layers_app, Sequential_forward_app.
    rewrite upsampling_stage_resamples_by_four by assumption. rewrite bind_Ok.
    rewrite IH by lia.
    rewrite Nat2Z.inj_succ, Z.pow_succ_r by lia.
    f_equal. sizes_eq.
Qed.

(** X9.  For an upscale factor that is a power of two below [2^20],
    [f = 2^k] with [k < 20] (the range in which the double-precision
    [int(math.log(f, 2))] of the source is the exact logarithm), the
    resampling layers the constructor puts into the upsampling stack (per
    stage an [Upsample] by 2, a 3x3 convolution from 64 to 256 channels, its
    activation and a [PixelShuffle] by 2; the Inception blocks between them
    left aside) map a 64-channel image of size (H, W) to size (H * f * f,
    W * f * f): each of the [k] stages scales by 4, so the stack is built for
    the square of the requested factor. *)
Theorem Generator_resampling_scales_by_square
  (tr : bool) (k : Z) (gen : Generator.t) (n h w : Z) :
  0 <= k -> k < 20 -> Generator.init (2 ^ k) = Ok gen -> 1 <= h -> 1 <= w ->
  Generator.upsampling gen
    = concat (repeat Generator.upsampling_stage (Z.to_nat k))
  /\ Sequential_forward tr (resampling_layers (Generator.upsampling gen)) [n; 64; h; w]
     = Ok [n; 64; h * (2 ^ k * 2 ^ k); w * (2 ^ k * 2 ^ k)].
Proof.
  intros Hk Hbound Hg Hh Hw.
  destruct (Generator_init_Ok_inv _ gen Hg) as (_ & _ & _ & _ & _ & Hu).
  assert (E : Generator.upsampling gen
              = concat (repeat Generator.upsampling_stage (Z.to_nat k))).
  { rewrite Hu, for_range_app. unfold Generator.upsample_block_num.
    rewrite Z.log2_pow2 by exact Hk. reflexivity. }
  split; [exact E |].
  rewrite E, resampling_stages_scale by assumption.
  rewrite Z2Nat.id by exact Hk.
  change 4 with (2 * 2). rewrite Z.pow_mul_l. reflexivity.
Qed.

Lemma Generator_resampling_scales_by_square_witness :
  exists gen,
    Generator.init (2 ^ 2) = Ok gen
    /\ Generator.upsampling gen
       = concat (repeat Generator.upsampling_stage (Z.to_nat 2))
    /\ Sequential_forward false (resampling_layers (Generator.upsampling gen))
         [1; 64; 8; 8]
       = Ok [1; 64; 8 * (2 ^ 2 * 2 ^ 2); 8 * (2 ^ 2 * 2 ^ 2)].
Proof.
  eexists. split; [reflexivity |].
  apply (Generator_resampling_scales_by_square false 2 _ 1 8 8);
    [lia | lia | reflexivity | lia | lia].
Defined.
